(** * PetVerse: the pet simulation engine of [backend.py]

    A shallow embedding of the engine (time decay, actions, economy,
    levelling, registry and the save/load codec) together with the
    properties its specification states about it.

    Modelling conventions.
    - Python [float] attributes are exact rationals ([Q]); [int]
      attributes are [Z].  [min] and [max] are Python's two-argument
      builtins (the first argument wins a tie).  The rounding of binary
      floating point is not modelled: what depends on it (the energy tests
      of [do_job], which multiply by [0.3]; equalities between computed
      floats) is stated through the result the call itself returns, or as
      an inequality that clamping guarantees whatever the rounding.
    - A Python [int] is unbounded, and its product with a float raises
      [OverflowError] once it leaves the range of a float; the model has no
      such exception.  Statements that read a duration arithmetically carry
      [minutes_bounded], within which the conversion is exact.
    - The interpreter's own functions are parameters, not definitions:
      [str.strip] and [str.lower] (on any Unicode text), [round], [float]
      on a string and on a large integer, and the host's calendar.
    - A method mutating [self] and returning a value is a computation in
      the state monad [M] over [Pet].
    - The wall clock and the random source are inputs: one call happens at
      one instant [now], and draws [rand] (for [random.random()]) and
      [randint] (for [random.randint(1, 5)]).
    - A returned message is its template and the values interpolated. *)

From Stdlib Require Import ZArith QArith Qround Bool Lia Lqa Ascii String.
From stdpp Require Import gmap strings pretty.

Set Warnings "-register-all".
Local Open Scope Z_scope.

(** ** Python numerics on [Q] *)

Definition Qltb (a b : Q) : bool := negb (Qle_bool b a).

(** [min(a, b)] and [max(a, b)]: the second argument is taken only when
    it is strictly smaller (larger). *)
Definition py_min (a b : Q) : Q := if Qltb b a then b else a.
Definition py_max (a b : Q) : Q := if Qltb a b then b else a.

(** Truth value of a float: everything but zero. *)
Definition truthy (q : Q) : bool := negb (Qeq_bool q 0).

(** [int(x)] on a float: truncation toward zero. *)
Definition py_int (x : Q) : Z := Z.quot (Qnum x) (Zpos (Qden x)).

(** ** Configuration constants *)

Definition HUNGER_INCREASE_PER_HOUR : Q := 2.
Definition ENERGY_RECOVER_PER_HOUR : Q := 1.
Definition HAPPINESS_DECAY_PER_HOUR : Q := 1 # 2.
Definition FEED_COST : Z := 5.

(** A shop item is a dictionary from effect names to magnitudes. *)
Definition SHOP_ITEMS : gmap string (gmap string Z) :=
  <["food" := <["price" := 5]> (<["hunger_restore" := 25]> (<["happiness" := 5]> ∅))]>
  (<["toy" := <["price" := 10]> (<["hunger_restore" := 0]>
                (<["happiness" := 20]> (<["energy_cost" := 5]> ∅)))]>
  (<["energy_drink" := <["price" := 8]> (<["energy_restore" := 30]>
                (<["happiness" := 2]> ∅))]> ∅)).

Definition DAILY_REWARD_COINS : Z := 20.
Definition JOB_COIN_RATE_PER_MIN : Q := 1 / 5.
Definition PLAY_COIN_REWARD : Z := 1.
Definition REST_COIN_REWARD : Z := 1.
Definition RANDOM_GIFT_CHANCE : Q := 5 # 100.
Definition RANDOM_GIFT_MIN : Z := 1.
Definition RANDOM_GIFT_MAX : Z := 5.

(** [item[k]] for a key every catalogue entry reaching it has, and
    [item.get(k, 0)]. *)
Definition item_at (item : gmap string Z) (k : string) : Z := default 0 (item !! k).

(** ** The Pet dataclass *)

Record Pet := mkPet {
  name : string;
  species : string;
  hunger : Q;
  happiness : Q;
  energy : Q;
  max_energy : Q;
  level : Z;
  xp : Z;
  coins : Z;
  last_updated : Q;
  evolve_at : Z;
  evolution : option string;
  evolved : bool;
  last_daily_claim : Q;
  last_gift_time : Q;
  last_gift_amount : Z
}.

(** Attribute assignment [self.f = v]. *)
Definition set_hunger (v : Q) (p : Pet) : Pet :=
  mkPet (name p) (species p) v (happiness p) (energy p) (max_energy p) (level p)
        (xp p) (coins p) (last_updated p) (evolve_at p) (evolution p) (evolved p)
        (last_daily_claim p) (last_gift_time p) (last_gift_amount p).
Definition set_happiness (v : Q) (p : Pet) : Pet :=
  mkPet (name p) (species p) (hunger p) v (energy p) (max_energy p) (level p)
        (xp p) (coins p) (last_updated p) (evolve_at p) (evolution p) (evolved p)
        (last_daily_claim p) (last_gift_time p) (last_gift_amount p).
Definition set_energy (v : Q) (p : Pet) : Pet :=
  mkPet (name p) (species p) (hunger p) (happiness p) v (max_energy p) (level p)
        (xp p) (coins p) (last_updated p) (evolve_at p) (evolution p) (evolved p)
        (last_daily_claim p) (last_gift_time p) (last_gift_amount p).
Definition set_level (v : Z) (p : Pet) : Pet :=
  mkPet (name p) (species p) (hunger p) (happiness p) (energy p) (max_energy p) v
        (xp p) (coins p) (last_updated p) (evolve_at p) (evolution p) (evolved p)
        (last_daily_claim p) (last_gift_time p) (last_gift_amount p).
Definition set_xp (v : Z) (p : Pet) : Pet :=
  mkPet (name p) (species p) (hunger p) (happiness p) (energy p) (max_energy p) (level p)
        v (coins p) (last_updated p) (evolve_at p) (evolution p) (evolved p)
        (last_daily_claim p) (last_gift_time p) (last_gift_amount p).
Definition set_coins (v : Z) (p : Pet) : Pet :=
  mkPet (name p) (species p) (hunger p) (happiness p) (energy p) (max_energy p) (level p)
        (xp p) v (last_updated p) (evolve_at p) (evolution p) (evolved p)
        (last_daily_claim p) (last_gift_time p) (last_gift_amount p).
Definition set_last_updated (v : Q) (p : Pet) : Pet :=
  mkPet (name p) (species p) (hunger p) (happiness p) (energy p) (max_energy p) (level p)
        (xp p) (coins p) v (evolve_at p) (evolution p) (evolved p)
        (last_daily_claim p) (last_gift_time p) (last_gift_amount p).
Definition set_evolved (v : bool) (p : Pet) : Pet :=
  mkPet (name p) (species p) (hunger p) (happiness p) (energy p) (max_energy p) (level p)
        (xp p) (coins p) (last_updated p) (evolve_at p) (evolution p) v
        (last_daily_claim p) (last_gift_time p) (last_gift_amount p).
Definition set_last_daily_claim (v : Q) (p : Pet) : Pet :=
  mkPet (name p) (species p) (hunger p) (happiness p) (energy p) (max_energy p) (level p)
        (xp p) (coins p) (last_updated p) (evolve_at p) (evolution p) (evolved p)
        v (last_gift_time p) (last_gift_amount p).
Definition set_last_gift_time (v : Q) (p : Pet) : Pet :=
  mkPet (name p) (species p) (hunger p) (happiness p) (energy p) (max_energy p) (level p)
        (xp p) (coins p) (last_updated p) (evolve_at p) (evolution p) (evolved p)
        (last_daily_claim p) v (last_gift_amount p).
Definition set_last_gift_amount (v : Z) (p : Pet) : Pet :=
  mkPet (name p) (species p) (hunger p) (happiness p) (energy p) (max_energy p) (level p)
        (xp p) (coins p) (last_updated p) (evolve_at p) (evolution p) (evolved p)
        (last_daily_claim p) (last_gift_time p) v.

(** ** The state monad of a method call on one pet *)

Definition M (A : Type) : Type := Pet -> A * Pet.

Definition ret {A} (a : A) : M A := fun p => (a, p).
Definition bind {A B} (c : M A) (k : A -> M B) : M B :=
  fun p => let (a, p') := c p in k a p'.
Definition gets {A} (f : Pet -> A) : M A := fun p => (f p, p).
Definition modify (f : Pet -> Pet) : M unit := fun p => (tt, f p).

Declare Scope pet_scope.
Notation "x <- c ;; k" := (bind c (fun x => k))
  (at level 100, c at next level, right associativity) : pet_scope.
Notation "c ;; k" := (bind c (fun _ => k))
  (at level 100, right associativity) : pet_scope.
Local Open Scope pet_scope.

(** The pet a call leaves behind, and the value it returns. *)
Definition exec {A} (c : M A) (p : Pet) : Pet := snd (c p).
Definition eval {A} (c : M A) (p : Pet) : A := fst (c p).

(** ** Clock and random source read by one call *)

Record Env := mkEnv {
  now : Q;       (* time.time() *)
  rand : Q;      (* random.random() *)
  randint : Z    (* random.randint(RANDOM_GIFT_MIN, RANDOM_GIFT_MAX) *)
}.

(** ** Messages *)

Inductive Msg :=
| NotEnoughCoinsFood
| Fed (who : string) (old_hunger new_hunger : Q)
| TooTiredToPlay (who : string)
| Played (minutes : Z) (old_energy new_energy : Q) (reward : Z)
| Rested (who : string) (old_energy new_energy : Q) (reward : Z)
| DailyClaimed (reward : Z)
| DailyAlreadyClaimed
| InvalidJobDuration
| TooTiredToWork (who : string)
| Worked (who : string) (minutes earned : Z)
| InvalidItem
| NotEnoughCoins
| UsedFood (new_hunger : Q)
| TooTiredForToy (who : string)
| PlayedWithToy (new_energy : Q)
| DrankEnergyDrink (new_energy : Q)
| UnknownItemEffect
| FoundCoins (amount : Z)
| PetNameEmpty
| PetExists
| PetCreated (who kind : string)
| NoSaveFile
| Loaded (count : nat).

(** ** Time decay and the random gift *)

Definition _apply_time_decay (seconds : Q) : M unit :=
  let hours := (seconds / 3600)%Q in
  if Qle_bool hours 0 then ret tt
  else
    h <- gets hunger ;;
    modify (set_hunger (py_min 100 (h + HUNGER_INCREASE_PER_HOUR * hours))) ;;
    en <- gets energy ;;
    mx <- gets max_energy ;;
    modify (set_energy (py_max 0 (py_min mx (en + ENERGY_RECOVER_PER_HOUR * hours)))) ;;
    h' <- gets hunger ;;
    en' <- gets energy ;;
    if Qltb 70 h' || Qltb en' 20 then
      hp <- gets happiness ;;
      modify (set_happiness (py_max 0 (hp - HAPPINESS_DECAY_PER_HOUR * hours)))
    else ret tt.

Definition _maybe_random_gift (e : Env) : M (option Msg) :=
  if Qltb (rand e) RANDOM_GIFT_CHANCE then
    let amt := randint e in
    c <- gets coins ;;
    modify (set_coins (c + amt)) ;;
    modify (set_last_gift_time (now e)) ;;
    modify (set_last_gift_amount amt) ;;
    ret (Some (FoundCoins amt))
  else ret None.

Definition refresh (e : Env) : M unit :=
  last <- gets last_updated ;;
  let elapsed := (now e - last)%Q in
  if Qltb 0 elapsed then
    _apply_time_decay elapsed ;;
    _maybe_random_gift e ;;
    modify (set_last_updated (now e))
  else ret tt.

(** ** Levelling and evolution *)

(** One iteration of the body of [while self.xp >= 100]. *)
Definition level_up_once (p : Pet) : Pet :=
  set_coins (coins p + 20) (set_level (level p + 1) (set_xp (xp p - 100) p)).

(** The loop, run for at most [fuel] iterations; it reports whether the
    body ran at all ([leveled_up]). *)
Fixpoint level_up_loop (fuel : nat) (leveled_up : bool) (p : Pet) : bool * Pet :=
  match fuel with
  | O => (leveled_up, p)
  | S fuel' =>
      if 100 <=? xp p then level_up_loop fuel' true (level_up_once p)
      else (leveled_up, p)
  end.

(** Each iteration lowers [xp] by 100, so [xp / 100] iterations exhaust
    any [xp]; [while_xp_ge_100_exits] shows the loop always leaves through
    its condition, never through the fuel. *)
Definition loop_fuel (p : Pet) : nat := Z.to_nat (xp p / 100).

Definition _gain_xp (amount : Z) : M bool :=
  x <- gets xp ;;
  modify (set_xp (x + amount)) ;;
  fun p =>
    let (leveled_up, p1) := level_up_loop (loop_fuel p) false p in
    if leveled_up && negb (evolved p1) && (evolve_at p1 <=? level p1)
    then (true, set_evolved true p1)
    else (false, p1).

(** ** Actions *)

Section Engine.

(** [time.strftime("%Y-%m-%d", time.localtime(t))] and [time.ctime(t)]:
    the host's calendar, in whatever time zone it is set to. *)
Variable local_date : Q -> string.
Variable ctime : Q -> string.

(** [round(x, 1)], the interpreter's rounding of a float to one decimal. *)
Variable round1 : Q -> Q.

Definition feed (e : Env) (use_item : bool) (food_strength : Z) : M (bool * Msg) :=
  refresh e ;;
  c <- gets coins ;;
  if negb use_item && (c <? FEED_COST) then ret (false, NotEnoughCoinsFood)
  else
    (if negb use_item then modify (set_coins (c - FEED_COST)) else ret tt) ;;
    old_hunger <- gets hunger ;;
    old_happiness <- gets happiness ;;
    modify (set_hunger (py_max 0 (old_hunger - inject_Z food_strength))) ;;
    modify (set_happiness (py_min 100 (old_happiness + inject_Z food_strength * (2 # 10)))) ;;
    _gain_xp 10 ;;
    who <- gets name ;;
    h <- gets hunger ;;
    ret (true, Fed who old_hunger h).

Definition play (e : Env) (minutes : Z) : M (bool * Msg) :=
  refresh e ;;
  let energy_cost := (inject_Z minutes * (5 # 10))%Q in
  old_energy <- gets energy ;;
  if Qltb old_energy energy_cost then
    who <- gets name ;; ret (false, TooTiredToPlay who)
  else
    old_happiness <- gets happiness ;;
    modify (set_energy (py_max 0 (old_energy - energy_cost))) ;;
    modify (set_happiness (py_min 100 (old_happiness + inject_Z minutes * (6 # 10)))) ;;
    c <- gets coins ;;
    modify (set_coins (c + PLAY_COIN_REWARD)) ;;
    _gain_xp (15 + py_int (inject_Z minutes / 5)) ;;
    en <- gets energy ;;
    ret (true, Played minutes old_energy en PLAY_COIN_REWARD).

Definition rest (e : Env) (minutes : Z) : M (bool * Msg) :=
  refresh e ;;
  let energy_gain := (inject_Z minutes * (8 # 10))%Q in
  old_energy <- gets energy ;;
  mx <- gets max_energy ;;
  modify (set_energy (py_min mx (old_energy + energy_gain))) ;;
  hp <- gets happiness ;;
  modify (set_happiness (py_min 100 (hp + inject_Z minutes * (3 # 100)))) ;;
  c <- gets coins ;;
  modify (set_coins (c + REST_COIN_REWARD)) ;;
  who <- gets name ;;
  en <- gets energy ;;
  ret (true, Rested who old_energy en REST_COIN_REWARD).

Definition daily_reward (e : Env) : M (bool * Msg) :=
  let today := local_date (now e) in
  last <- gets last_daily_claim ;;
  let last_claim_day := if truthy last then Some (local_date last) else None in
  if negb (bool_decide (last_claim_day = Some today)) then
    c <- gets coins ;;
    modify (set_coins (c + DAILY_REWARD_COINS)) ;;
    modify (set_last_daily_claim (now e)) ;;
    ret (true, DailyClaimed DAILY_REWARD_COINS)
  else ret (false, DailyAlreadyClaimed).

Definition do_job (e : Env) (minutes : Z) : M (bool * Msg) :=
  refresh e ;;
  if minutes <=? 0 then ret (false, InvalidJobDuration)
  else
    let energy_cost := (inject_Z minutes * (3 # 10))%Q in
    en <- gets energy ;;
    if Qltb en energy_cost then
      who <- gets name ;; ret (false, TooTiredToWork who)
    else
      let earned := py_int (inject_Z minutes * JOB_COIN_RATE_PER_MIN) in
      modify (set_energy (py_max 0 (en - energy_cost))) ;;
      c <- gets coins ;;
      modify (set_coins (c + earned)) ;;
      let xp_gain := Z.max 1 (minutes / 10) in
      _gain_xp xp_gain ;;
      who <- gets name ;;
      ret (true, Worked who minutes earned).

(** [if not item]: a missing entry and an empty dictionary are both false. *)
Definition falsy_item (o : option (gmap string Z)) : bool :=
  match o with
  | None => true
  | Some item => bool_decide (item = ∅)
  end.

Definition buy_item (item_key : string) : M (bool * Msg) :=
  let o := SHOP_ITEMS !! item_key in
  if falsy_item o then ret (false, InvalidItem)
  else
    let item := default ∅ o in
    c <- gets coins ;;
    if c <? item_at item "price" then ret (false, NotEnoughCoins)
    else
      modify (set_coins (c - item_at item "price")) ;;
      if String.eqb item_key "food" then
        h <- gets hunger ;;
        modify (set_hunger (py_max 0 (h - inject_Z (item_at item "hunger_restore")))) ;;
        hp <- gets happiness ;;
        modify (set_happiness (py_min 100 (hp + inject_Z (item_at item "happiness")))) ;;
        _gain_xp 5 ;;
        h' <- gets hunger ;;
        ret (true, UsedFood h')
      else if String.eqb item_key "toy" then
        let energy_cost := inject_Z (item_at item "energy_cost") in
        en <- gets energy ;;
        if Qltb en energy_cost then
          c' <- gets coins ;;
          modify (set_coins (c' + item_at item "price")) ;;
          who <- gets name ;;
          ret (false, TooTiredForToy who)
        else
          modify (set_energy (py_max 0 (en - energy_cost))) ;;
          hp <- gets happiness ;;
          modify (set_happiness (py_min 100 (hp + inject_Z (item_at item "happiness")))) ;;
          _gain_xp 10 ;;
          en' <- gets energy ;;
          ret (true, PlayedWithToy en')
      else if String.eqb item_key "energy_drink" then
        en <- gets energy ;;
        mx <- gets max_energy ;;
        modify (set_energy (py_min mx (en + inject_Z (item_at item "energy_restore")))) ;;
        hp <- gets happiness ;;
        modify (set_happiness (py_min 100 (hp + inject_Z (item_at item "happiness")))) ;;
        _gain_xp 7 ;;
        en' <- gets energy ;;
        ret (true, DrankEnergyDrink en')
      else ret (false, UnknownItemEffect).

(** The dictionary [status] returns. *)
Record Status := mkStatus {
  st_name : string;
  st_species : string;
  st_evolution : option string;
  st_hunger : Q;
  st_happiness : Q;
  st_energy : Q;
  st_level : Z;
  st_xp : Z;
  st_coins : Z;
  st_last_updated : string;
  st_gift_message : option Msg;
  st_last_daily_claim : option string
}.

Definition status (e : Env) : M Status :=
  refresh e ;;
  fun p =>
    let gift_msg :=
      if truthy (last_gift_time p) && Qltb (now e - last_gift_time p) 5
      then Some (FoundCoins (last_gift_amount p)) else None in
    (mkStatus (name p) (species p)
       (if evolved p then evolution p else Some (species p))
       (round1 (hunger p)) (round1 (happiness p)) (round1 (energy p))
       (level p) (xp p) (coins p) (ctime (last_updated p)) gift_msg
       (if truthy (last_daily_claim p) then Some (ctime (last_daily_claim p)) else None),
     p).

(** The public action methods, as the request layer invokes them
    ([feed] with its default arguments). *)
Inductive Action :=
| AFeed
| APlay (minutes : Z)
| ARest (minutes : Z)
| AJob (minutes : Z)
| ABuy (item_key : string)
| ADaily.

Definition perform (e : Env) (a : Action) : M (bool * Msg) :=
  match a with
  | AFeed => feed e false 20
  | APlay m => play e m
  | ARest m => rest e m
  | AJob m => do_job e m
  | ABuy k => buy_item k
  | ADaily => daily_reward e
  end.

End Engine.

(** ** Species catalogue and pet creation *)

Record Template := mkTemplate {
  t_max_energy : Z;
  t_base_hunger : Z;
  t_base_happiness : Z;
  t_evolve_at : Z;
  t_evolution : string
}.

#[global] Instance Template_inhabited : Inhabited Template :=
  populate (mkTemplate 0 0 0 0 "").

Definition TEMPLATES : gmap string Template :=
  <["cat" := mkTemplate 100 30 60 5 "Big Cat"]>
  (<["dog" := mkTemplate 120 35 55 6 "Wolfhound"]>
  (<["dragon" := mkTemplate 200 20 65 4 "Elder Dragon"]> ∅)).

Module PetFactory.

Section Factory.

(** [str.lower], the interpreter's own, on every string. *)
Variable lower : string -> string.

(** [Pet(...)] with the dataclass defaults for the fields not passed;
    [last_updated] defaults to [time.time()]. *)
Definition create_pet (t_now : Q) (name species : string) : Pet :=
  let spec := lower species in
  let template := default (TEMPLATES !!! "cat") (TEMPLATES !! spec) in
  {| name := name;
     species := spec;
     hunger := inject_Z (t_base_hunger template);
     happiness := inject_Z (t_base_happiness template);
     energy := inject_Z (t_max_energy template);
     max_energy := inject_Z (t_max_energy template);
     level := 1;
     xp := 0;
     coins := 50;
     last_updated := t_now;
     evolve_at := t_evolve_at template;
     evolution := Some (t_evolution template);
     evolved := false;
     last_daily_claim := 0;
     last_gift_time := 0;
     last_gift_amount := 0 |}.

End Factory.

End PetFactory.

(** ** Persistence codec *)

(** A value of a JSON document, as [json.load] returns it.  A number is
    finite: the literals [NaN] and [Infinity], which [json.load] also
    accepts, have no rational to stand for them. *)
Inductive value :=
| VNone
| VBool (b : bool)
| VInt (z : Z)
| VFloat (q : Q)
| VStr (s : string)
| VList (items : list value)
| VDict (entries : list (string * value)).

(** A [Pet] instance as the interpreter holds it.  The dataclass checks
    no types, so an attribute is whatever value the constructor was given;
    [from_dict] builds such instances from arbitrary documents. *)
Record PetObj := mkPetObj {
  o_name : value;
  o_species : value;
  o_hunger : value;
  o_happiness : value;
  o_energy : value;
  o_max_energy : value;
  o_level : value;
  o_xp : value;
  o_coins : value;
  o_last_updated : value;
  o_evolve_at : value;
  o_evolution : value;
  o_evolved : value;
  o_last_daily_claim : value;
  o_last_gift_time : value;
  o_last_gift_amount : value
}.

Definition set_o_last_updated (v : value) (o : PetObj) : PetObj :=
  mkPetObj (o_name o) (o_species o) (o_hunger o) (o_happiness o) (o_energy o)
           (o_max_energy o) (o_level o) (o_xp o) (o_coins o) v (o_evolve_at o)
           (o_evolution o) (o_evolved o) (o_last_daily_claim o) (o_last_gift_time o)
           (o_last_gift_amount o).

Definition of_option_str (o : option string) : value :=
  match o with Some s => VStr s | None => VNone end.

(** The instance holding a well-typed pet of the engine. *)
Definition obj_of_pet (p : Pet) : PetObj :=
  mkPetObj (VStr (name p)) (VStr (species p)) (VFloat (hunger p)) (VFloat (happiness p))
           (VFloat (energy p)) (VFloat (max_energy p)) (VInt (level p)) (VInt (xp p))
           (VInt (coins p)) (VFloat (last_updated p)) (VInt (evolve_at p))
           (of_option_str (evolution p)) (VBool (evolved p))
           (VFloat (last_daily_claim p)) (VFloat (last_gift_time p))
           (VInt (last_gift_amount p)).

Definition as_float (v : value) : option Q :=
  match v with VFloat q => Some q | VInt z => Some (inject_Z z) | _ => None end.
Definition as_int (v : value) : option Z :=
  match v with VInt z => Some z | _ => None end.
Definition as_str (v : value) : option string :=
  match v with VStr s => Some s | _ => None end.
Definition as_bool (v : value) : option bool :=
  match v with VBool b => Some b | _ => None end.
Definition as_option_str (v : value) : option (option string) :=
  match v with VStr s => Some (Some s) | VNone => Some None | _ => None end.

(** The engine's view of an instance whose attributes have the types the
    dataclass declares. *)
Definition pet_of_obj (o : PetObj) : option Pet :=
  n ← as_str (o_name o); sp ← as_str (o_species o);
  h ← as_float (o_hunger o); hp ← as_float (o_happiness o);
  en ← as_float (o_energy o); mx ← as_float (o_max_energy o);
  lv ← as_int (o_level o); x ← as_int (o_xp o); c ← as_int (o_coins o);
  lu ← as_float (o_last_updated o); ea ← as_int (o_evolve_at o);
  ev ← as_option_str (o_evolution o); evd ← as_bool (o_evolved o);
  ldc ← as_float (o_last_daily_claim o); lgt ← as_float (o_last_gift_time o);
  lga ← as_int (o_last_gift_amount o);
  Some (mkPet n sp h hp en mx lv x c lu ea ev evd ldc lgt lga).

(** [asdict(self)]. *)
Definition to_dict (o : PetObj) : gmap string value :=
  <["name" := o_name o]> (<["species" := o_species o]>
  (<["hunger" := o_hunger o]> (<["happiness" := o_happiness o]>
  (<["energy" := o_energy o]> (<["max_energy" := o_max_energy o]>
  (<["level" := o_level o]> (<["xp" := o_xp o]> (<["coins" := o_coins o]>
  (<["last_updated" := o_last_updated o]> (<["evolve_at" := o_evolve_at o]>
  (<["evolution" := o_evolution o]> (<["evolved" := o_evolved o]>
  (<["last_daily_claim" := o_last_daily_claim o]>
  (<["last_gift_time" := o_last_gift_time o]>
  (<["last_gift_amount" := o_last_gift_amount o]> ∅))))))))))))))).

(** [data.get(k, d)]. *)
Definition dict_get (data : gmap string value) (k : string) (d : value) : value :=
  default d (data !! k).

Definition from_dict (t_now : Q) (data : gmap string value) : PetObj :=
  {| o_name := dict_get data "name" VNone;
     o_species := dict_get data "species" VNone;
     o_hunger := dict_get data "hunger" (VFloat 50);
     o_happiness := dict_get data "happiness" (VFloat 50);
     o_energy := dict_get data "energy" (dict_get data "max_energy" (VFloat 100));
     o_max_energy := dict_get data "max_energy" (VFloat 100);
     o_level := dict_get data "level" (VInt 1);
     o_xp := dict_get data "xp" (VInt 0);
     o_coins := dict_get data "coins" (VInt 50);
     o_last_updated := dict_get data "last_updated" (VFloat t_now);
     o_evolve_at := dict_get data "evolve_at" (VInt 999);
     o_evolution := dict_get data "evolution" VNone;
     o_evolved := dict_get data "evolved" (VBool false);
     o_last_daily_claim := dict_get data "last_daily_claim" (VFloat 0);
     o_last_gift_time := dict_get data "last_gift_time" (VFloat 0);
     o_last_gift_amount := dict_get data "last_gift_amount" (VInt 0) |}.

(** [float(v)], [None] when it raises.  An integer up to [2^53] in
    magnitude converts exactly; [parse_float] is the interpreter's parser of
    numerals, used on strings, and [int_float] its conversion of a larger
    integer (the nearest double, or [OverflowError]). *)
Definition py_float (parse_float : string -> option Q) (int_float : Z -> option Q)
    (v : value) : option Q :=
  match v with
  | VFloat q => Some q
  | VInt z => if Z.abs z <=? 2 ^ 53 then Some (inject_Z z) else int_float z
  | VBool b => Some (if b then 1 else 0)%Q
  | VStr s => parse_float s
  | VNone | VList _ | VDict _ => None
  end.

(** ** The registry *)

Module PetWorld.

Section World.

(** [str.strip] and [str.lower], the interpreter's own, on every string. *)
Variable strip : string -> string.
Variable lower : string -> string.

(** The interpreter's parser of numerals and its conversion of large
    integers, see [py_float]. *)
Variable parse_float : string -> option Q.
Variable int_float : Z -> option Q.

Definition create_pet (t_now : Q) (name species : string)
    (pets : gmap string PetObj) : (bool * Msg) * gmap string PetObj :=
  let name := strip name in
  if String.eqb name "" then ((false, PetNameEmpty), pets)
  else if bool_decide (is_Some (pets !! name)) then ((false, PetExists), pets)
  else
    let pet := PetFactory.create_pet lower t_now name species in
    ((true, PetCreated name species), <[name := obj_of_pet pet]> pets).

Definition get_pet (name : string) (pets : gmap string PetObj) : option PetObj :=
  pets !! name.

Definition delete_pet (name : string) (pets : gmap string PetObj)
    : bool * gmap string PetObj :=
  if bool_decide (is_Some (pets !! name)) then (true, delete name pets)
  else (false, pets).

(** [save] writes the document it builds; the store holds it as written. *)
Definition save (pets : gmap string PetObj) : gmap string (gmap string value) :=
  to_dict <$> pets.

(** The body of the loop of [load] for one entry of the document. *)
Definition load_entry (t_now : Q) (pdata : gmap string value) : PetObj :=
  let pet := from_dict t_now pdata in
  match py_float parse_float int_float (dict_get pdata "last_updated" (VFloat t_now)) with
  | Some t => set_o_last_updated (VFloat t) pet
  | None => set_o_last_updated (VFloat t_now) pet
  end.

(** [load]: [file] is the content of the store, [None] when it does not
    exist. *)
Definition load (t_now : Q) (file : option (gmap string (gmap string value)))
    (pets : gmap string PetObj) : (bool * Msg) * gmap string PetObj :=
  match file with
  | None => ((false, NoSaveFile), pets)
  | Some raw =>
      let pets' :=
        map_fold (fun name pdata acc => <[name := load_entry t_now pdata]> acc) pets raw in
      ((true, Loaded (size pets')), pets')
  end.

(** [PetWorld()]: an empty registry, filled from the store when there is
    one. *)
Definition new_world (t_now : Q) (file : option (gmap string (gmap string value)))
    : gmap string PetObj :=
  match file with
  | Some _ => snd (load t_now file ∅)
  | None => ∅
  end.

End World.

End PetWorld.

(** * Vocabulary of the specification *)

(** Number of times the loop of [_gain_xp] runs its body from a given
    [xp]. *)
Definition level_ups (x : Z) : Z := if 100 <=? x then x / 100 else 0.

(** The documented ranges of the clamped attributes and of [xp]. *)
Definition in_range (p : Pet) : Prop :=
  (0 <= hunger p)%Q /\ (hunger p <= 100)%Q /\
  (0 <= happiness p)%Q /\ (happiness p <= 100)%Q /\
  (0 <= energy p)%Q /\ (energy p <= max_energy p)%Q.

Definition xp_normal (p : Pet) : Prop := 0 <= xp p < 100.

(** The state an action validates its precondition on: [feed], [play],
    [rest] and [do_job] refresh first, [buy_item] and [daily_reward] read
    the pet as it is. *)
Definition validated_state (e : Env) (a : Action) (p : Pet) : Pet :=
  match a with
  | ABuy _ | ADaily => p
  | _ => exec (refresh e) p
  end.

(** The precondition failures of the action table, on the validated
    state [q], as exact arithmetic decides them. *)
Definition precondition_fails (local_date : Q -> string) (e : Env) (a : Action)
    (q : Pet) : bool :=
  match a with
  | AFeed => coins q <? FEED_COST
  | APlay m => Qltb (energy q) (inject_Z m * (5 # 10))
  | ARest _ => false
  | AJob m => (m <=? 0) || Qltb (energy q) (inject_Z m * (3 # 10))
  | ABuy k =>
      if String.eqb k "food" then coins q <? 5
      else if String.eqb k "toy" then (coins q <? 10) || Qltb (energy q) (inject_Z 5)
      else if String.eqb k "energy_drink" then coins q <? 8
      else true
  | ADaily =>
      truthy (last_daily_claim q) &&
      String.eqb (local_date (last_daily_claim q)) (local_date (now e))
  end.


(** Durations a player would mean: [play] and [rest] for a non-negative
    number of minutes. *)
Definition minutes_nonneg (a : Action) : Prop :=
  match a with
  | APlay m | ARest m => 0 <= m
  | _ => True
  end.

(** The attributes of a pet, by name, as [getattr(pet, k)] reads them. *)
Definition FIELDS : list string :=
  ["name"; "species"; "hunger"; "happiness"; "energy"; "max_energy"; "level"; "xp";
   "coins"; "last_updated"; "evolve_at"; "evolution"; "evolved"; "last_daily_claim";
   "last_gift_time"; "last_gift_amount"].

Definition getattr (o : PetObj) (k : string) : option value :=
  if String.eqb k "name" then Some (o_name o)
  else if String.eqb k "species" then Some (o_species o)
  else if String.eqb k "hunger" then Some (o_hunger o)
  else if String.eqb k "happiness" then Some (o_happiness o)
  else if String.eqb k "energy" then Some (o_energy o)
  else if String.eqb k "max_energy" then Some (o_max_energy o)
  else if String.eqb k "level" then Some (o_level o)
  else if String.eqb k "xp" then Some (o_xp o)
  else if String.eqb k "coins" then Some (o_coins o)
  else if String.eqb k "last_updated" then Some (o_last_updated o)
  else if String.eqb k "evolve_at" then Some (o_evolve_at o)
  else if String.eqb k "evolution" then Some (o_evolution o)
  else if String.eqb k "evolved" then Some (o_evolved o)
  else if String.eqb k "last_daily_claim" then Some (o_last_daily_claim o)
  else if String.eqb k "last_gift_time" then Some (o_last_gift_time o)
  else if String.eqb k "last_gift_amount" then Some (o_last_gift_amount o)
  else None.

(** The value a field takes when the document has no entry for it. *)
Definition field_default (t_now : Q) (data : gmap string value) (k : string) : value :=
  if String.eqb k "hunger" then VFloat 50
  else if String.eqb k "happiness" then VFloat 50
  else if String.eqb k "energy" then dict_get data "max_energy" (VFloat 100)
  else if String.eqb k "max_energy" then VFloat 100
  else if String.eqb k "level" then VInt 1
  else if String.eqb k "xp" then VInt 0
  else if String.eqb k "coins" then VInt 50
  else if String.eqb k "last_updated" then VFloat t_now
  else if String.eqb k "evolve_at" then VInt 999
  else if String.eqb k "evolved" then VBool false
  else if String.eqb k "last_daily_claim" then VFloat 0
  else if String.eqb k "last_gift_time" then VFloat 0
  else if String.eqb k "last_gift_amount" then VInt 0
  else VNone.

(** What [PetWorld.load] puts in [last_updated] for an instance read from the
    store. *)
Definition reloaded (parse_float : string -> option Q) (int_float : Z -> option Q)
    (t_now : Q) (o : PetObj) : PetObj :=
  set_o_last_updated
    (VFloat (default t_now (py_float parse_float int_float (o_last_updated o)))) o.

(** ** The action table *)

(** What a successful action writes before any experience is awarded, on
    the state [q] it validated. *)
Definition feed_effect (use_item : bool) (food_strength : Z) (q : Pet) : Pet :=
  set_happiness (py_min 100 (happiness q + inject_Z food_strength * (2 # 10)))
    (set_hunger (py_max 0 (hunger q - inject_Z food_strength))
       (if use_item then q else set_coins (coins q - FEED_COST) q)).

Definition apply_effect (e : Env) (a : Action) (q : Pet) : Pet :=
  match a with
  | AFeed => feed_effect false 20 q
  | APlay m =>
      set_coins (coins q + PLAY_COIN_REWARD)
        (set_happiness (py_min 100 (happiness q + inject_Z m * (6 # 10)))
           (set_energy (py_max 0 (energy q - inject_Z m * (5 # 10))) q))
  | ARest m =>
      set_coins (coins q + REST_COIN_REWARD)
        (set_happiness (py_min 100 (happiness q + inject_Z m * (3 # 100)))
           (set_energy (py_min (max_energy q) (energy q + inject_Z m * (8 # 10))) q))
  | AJob m =>
      set_coins (coins q + py_int (inject_Z m * JOB_COIN_RATE_PER_MIN))
        (set_energy (py_max 0 (energy q - inject_Z m * (3 # 10))) q)
  | ABuy k =>
      if String.eqb k "food" then
        set_happiness (py_min 100 (happiness q + inject_Z 5))
          (set_hunger (py_max 0 (hunger q - inject_Z 25)) (set_coins (coins q - 5) q))
      else if String.eqb k "toy" then
        set_happiness (py_min 100 (happiness q + inject_Z 20))
          (set_energy (py_max 0 (energy q - inject_Z 5)) (set_coins (coins q - 10) q))
      else if String.eqb k "energy_drink" then
        set_happiness (py_min 100 (happiness q + inject_Z 2))
          (set_energy (py_min (max_energy q) (energy q + inject_Z 30))
             (set_coins (coins q - 8) q))
      else q
  | ADaily =>
      set_last_daily_claim (now e) (set_coins (coins q + DAILY_REWARD_COINS) q)
  end.

(** The experience a successful action awards, if any. *)
Definition xp_award (a : Action) : option Z :=
  match a with
  | AFeed => Some 10
  | APlay m => Some (15 + Z.quot m 5)
  | ARest _ => None
  | AJob m => Some (Z.max 1 (m / 10))
  | ABuy k =>
      if String.eqb k "food" then Some 5
      else if String.eqb k "toy" then Some 10
      else if String.eqb k "energy_drink" then Some 7
      else None
  | ADaily => None
  end.

Definition award (o : option Z) (q : Pet) : Pet :=
  match o with
  | Some amount => exec (_gain_xp amount) q
  | None => q
  end.

(** The coins a successful action pays ([+]) or charges ([-]), level-up
    bonuses apart. *)
Definition coin_delta (a : Action) : Z :=
  match a with
  | AFeed => - FEED_COST
  | APlay _ => PLAY_COIN_REWARD
  | ARest _ => REST_COIN_REWARD
  | AJob m => Z.quot m 5
  | ABuy k =>
      if String.eqb k "food" then -5
      else if String.eqb k "toy" then -10
      else if String.eqb k "energy_drink" then -8
      else 0
  | ADaily => DAILY_REWARD_COINS
  end.

(** Durations within the range where the interpreter's arithmetic on
    them is exact: the integer converts to a float without rounding,
    [minutes * 0.5] is exact and [int(minutes * (1/5))] is the whole number
    of fifths; no [OverflowError] arises. *)
Definition minutes_bounded (a : Action) : Prop :=
  match a with
  | APlay m | ARest m | AJob m => Z.abs m <= 2 ^ 31
  | _ => True
  end.

(** The actions whose precondition the interpreter decides exactly: all
    but [do_job], whose energy test multiplies by the inexact [0.3]. *)
Definition exactly_guarded (a : Action) : Prop :=
  match a with
  | AJob _ => False
  | _ => minutes_bounded a
  end.

(** The actions that, when they succeed, write [hunger] through
    [max(0, ...)] and [happiness] through [min(100, ...)]. *)
Definition writes_hunger (a : Action) : bool :=
  match a with
  | AFeed => true
  | ABuy k => String.eqb k "food"
  | _ => false
  end.

Definition writes_happiness (a : Action) : bool :=
  match a with
  | AJob _ | ADaily => false
  | _ => true
  end.


(** Every documented invariant of a pet at once. *)
Definition well_formed (p : Pet) : Prop :=
  in_range p /\ xp_normal p /\ 0 <= coins p /\ 1 <= level p.

(** A session: actions performed one after the other, each at its own
    instant. *)
Fixpoint run_session (local_date : Q -> string) (calls : list (Env * Action))
    (p : Pet) : Pet :=
  match calls with
  | [] => p
  | (e, a) :: rest => run_session local_date rest (exec (perform local_date e a) p)
  end.


(** ** Sample data *)

(** Instances of [str.lower] and [str.strip] for examples.  On ASCII text
    they compute what the interpreter computes; they are not used by the
    engine, which takes the interpreter's functions as they are. *)
Definition lower_char (c : ascii) : ascii :=
  let n := nat_of_ascii c in
  if (65 <=? n)%nat && (n <=? 90)%nat then ascii_of_nat (n + 32) else c.

Fixpoint ascii_lower (s : string) : string :=
  match s with
  | EmptyString => EmptyString
  | String c s' => String (lower_char c) (ascii_lower s')
  end.

Definition is_space (c : ascii) : bool :=
  let n := nat_of_ascii c in
  ((9 <=? n)%nat && (n <=? 13)%nat) || ((28 <=? n)%nat && (n <=? 32)%nat).

Fixpoint lstrip (s : string) : string :=
  match s with
  | EmptyString => EmptyString
  | String c s' => if is_space c then lstrip s' else s
  end.

Fixpoint rstrip (s : string) : string :=
  match s with
  | EmptyString => EmptyString
  | String c s' =>
      match rstrip s' with
      | EmptyString => if is_space c then EmptyString else String c EmptyString
      | r => String c r
      end
  end.

Definition ascii_strip (s : string) : string := lstrip (rstrip s).

(** The name [" Rex "] with a tab in front and a newline behind. *)
Definition padded_rex : string :=
  String "009"%char (" Rex " ++ String "010"%char "").

(** A calendar for examples: the date string is the number of the day
    since the epoch. *)
Definition day_date (t : Q) : string := pretty (Qfloor (t / 86400)).

(** [PetFactory.create_pet "Tom" "cat"] at time 0. *)
Definition tom : Pet :=
  mkPet "Tom" "cat" 30 60 100 100 1 0 50 0 5 (Some "Big Cat") false 0 0 0.

(** Tom, exhausted and last refreshed at time 0. *)
Definition tired_tom : Pet := set_energy 0 tom.

(** Tom without a coin. *)
Definition broke_tom : Pet := set_coins 0 tom.

(** Tom five points short of the next level. *)
Definition tom_xp95 : Pet := set_xp 95 tom.

(** Ten hours, respectively one hour, after time 0; [lucky] draws a gift
    of 3 coins, the others draw none. *)
Definition ten_hours_later : Env := mkEnv 36000 (1 # 2) 3.
Definition one_hour_later_lucky : Env := mkEnv 3600 0 3.
Definition at_time_zero : Env := mkEnv 0 (1 # 2) 3.

(** Tom after his evolution. *)
Definition big_tom : Pet := set_evolved true (set_level 5 tom).


(** A number parser for examples: it knows no numeral at all; and a
    conversion that finds every large integer out of range. *)
Definition no_numeral (s : string) : option Q := None.
Definition out_of_float_range (z : Z) : option Q := None.

(** A stored entry whose numbers lie outside every documented range and
    whose timestamp is not a number. *)
Definition out_of_range_entry : gmap string value :=
  <["name" := VStr "Rex"]> (<["species" := VStr "dog"]>
  (<["hunger" := VFloat 150]> (<["happiness" := VFloat (-20)]>
  (<["energy" := VFloat 500]> (<["max_energy" := VFloat 120]>
  (<["xp" := VInt 250]> (<["coins" := VInt (-5)]>
  (<["last_updated" := VStr "yesterday"]> ∅)))))))).

(** The pet [PetWorld.load] builds from it at time 1000, with a parser
    that rejects its timestamp. *)
Definition out_of_range_pet : Pet :=
  mkPet "Rex" "dog" 150 (-20) 500 120 1 250 (-5) 1000 999 None false 0 0 0.

(** A stored entry whose timestamp is a whole number, and an instant 3600
    seconds after the load of [out_of_range_pet]. *)
Definition stamped_entry : gmap string value :=
  <["name" := VStr "Tom"]> (<["last_updated" := VInt 12]> ∅).

Definition an_hour_after_load : Env := mkEnv 4600 (1 # 2) 3.


(** * Properties *)

(** ** Comparisons, [min] and [max] *)

Lemma Qltb_lt (a b : Q) : Qltb a b = true <-> (a < b)%Q.
Proof.
  unfold Qltb. rewrite negb_true_iff, <- not_true_iff_false, Qle_bool_iff.
  split; [apply Qnot_le_lt | apply Qlt_not_le].
Qed.

Lemma Qltb_ge (a b : Q) : Qltb a b = false <-> (b <= a)%Q.
Proof.
  unfold Qltb. rewrite negb_false_iff. apply Qle_bool_iff.
Qed.

Lemma py_min_le_l (a b : Q) : (py_min a b <= a)%Q.
Proof.
  unfold py_min. destruct (Qltb b a) eqn:E.
  - apply Qlt_le_weak, Qltb_lt, E.
  - apply Qle_refl.
Qed.

Lemma py_min_le_r (a b : Q) : (py_min a b <= b)%Q.
Proof.
  unfold py_min. destruct (Qltb b a) eqn:E.
  - apply Qle_refl.
  - apply Qltb_ge, E.
Qed.

Lemma py_min_glb (a b c : Q) : (c <= a)%Q -> (c <= b)%Q -> (c <= py_min a b)%Q.
Proof. unfold py_min. destruct (Qltb b a); auto. Qed.

Lemma py_max_ge_l (a b : Q) : (a <= py_max a b)%Q.
Proof.
  unfold py_max. destruct (Qltb a b) eqn:E.
  - apply Qlt_le_weak, Qltb_lt, E.
  - apply Qle_refl.
Qed.

Lemma py_max_ge_r (a b : Q) : (b <= py_max a b)%Q.
Proof.
  unfold py_max. destruct (Qltb a b) eqn:E.
  - apply Qle_refl.
  - apply Qltb_ge, E.
Qed.

Lemma py_max_lub (a b c : Q) : (a <= c)%Q -> (b <= c)%Q -> (py_max a b <= c)%Q.
Proof. unfold py_max. destruct (Qltb a b); auto. Qed.

(** ** The state monad *)

Lemma run_pair {A} (c : M A) (p : Pet) : c p = (eval c p, exec c p).
Proof. unfold eval, exec. destruct (c p); reflexivity. Qed.

Lemma bind_run {A B} (c : M A) (k : A -> M B) (p : Pet) :
  bind c k p = k (eval c p) (exec c p).
Proof. unfold bind, eval, exec. destruct (c p); reflexivity. Qed.

Lemma pet_eta (p : Pet) :
  mkPet (name p) (species p) (hunger p) (happiness p) (energy p) (max_energy p)
        (level p) (xp p) (coins p) (last_updated p) (evolve_at p) (evolution p)
        (evolved p) (last_daily_claim p) (last_gift_time p) (last_gift_amount p) = p.
Proof. destruct p; reflexivity. Qed.

Lemma eval_gets {A} (f : Pet -> A) (p : Pet) : eval (gets f) p = f p.
Proof. reflexivity. Qed.
Lemma exec_gets {A} (f : Pet -> A) (p : Pet) : exec (gets f) p = p.
Proof. reflexivity. Qed.
Lemma exec_modify (f : Pet -> Pet) (p : Pet) : exec (modify f) p = f p.
Proof. reflexivity. Qed.
Lemma exec_ret {A} (a : A) (p : Pet) : exec (ret a) p = p.
Proof. reflexivity. Qed.
Lemma eval_ret {A} (a : A) (p : Pet) : eval (ret a) p = a.
Proof. reflexivity. Qed.
Lemma eval_bind {A B} (c : M A) (k : A -> M B) (p : Pet) :
  eval (bind c k) p = eval (k (eval c p)) (exec c p).
Proof. unfold eval at 1. rewrite bind_run. reflexivity. Qed.
Lemma exec_bind {A B} (c : M A) (k : A -> M B) (p : Pet) :
  exec (bind c k) p = exec (k (eval c p)) (exec c p).
Proof. unfold exec at 1. rewrite bind_run. reflexivity. Qed.

Create Rewrite HintDb run.
#[global] Hint Rewrite @eval_bind @exec_bind @eval_gets @exec_gets exec_modify
  @exec_ret @eval_ret : run.

(** Reduce a method body to the pet it leaves and the value it returns. *)
Ltac run :=
  autorewrite with run;
  cbn [name species hunger happiness energy max_energy level xp coins last_updated
       evolve_at evolution evolved last_daily_claim last_gift_time last_gift_amount
       set_hunger set_happiness set_energy set_level set_xp set_coins set_last_updated
       set_evolved set_last_daily_claim set_last_gift_time set_last_gift_amount
       fst snd negb andb orb].

(** ** Levelling: the loop of [_gain_xp] *)

Lemma level_ups_nonneg (x : Z) : 0 <= level_ups x.
Proof.
  unfold level_ups. destruct (Z.leb_spec 100 x); [|lia].
  apply Z.div_pos; lia.
Qed.

Lemma level_ups_step (x : Z) : 100 <= x -> level_ups x = 1 + level_ups (x - 100).
Proof.
  intros H. unfold level_ups.
  destruct (Z.leb_spec 100 x); [|lia].
  replace x with ((x - 100) + 1 * 100) at 1 by lia.
  rewrite Z.div_add by lia.
  destruct (Z.leb_spec 100 (x - 100)); [lia|].
  rewrite Z.div_small; lia.
Qed.

Lemma level_up_loop_iter (fuel : nat) (l : bool) (p : Pet) :
  (Z.to_nat (xp p / 100) <= fuel)%nat ->
  level_up_loop fuel l p =
    (l || (100 <=? xp p), Nat.iter (Z.to_nat (level_ups (xp p))) level_up_once p).
Proof.
  revert l p. induction fuel as [|fuel IH]; intros l p Hfuel.
  - assert (Hx : xp p / 100 <= 0) by lia.
    assert (xp p < 100).
    { destruct (Z.lt_ge_cases (xp p) 100) as [|Hge]; [assumption|].
      pose proof (Z.div_le_mono 100 (xp p) 100 ltac:(lia) Hge) as Hd.
      rewrite Z.div_same in Hd; lia. }
    simpl. unfold level_ups. destruct (Z.leb_spec 100 (xp p)); [lia|].
    rewrite orb_false_r. reflexivity.
  - simpl. destruct (Z.leb_spec 100 (xp p)) as [Hge|Hlt].
    + rewrite IH.
      * rewrite orb_true_r, (level_ups_step (xp p) Hge).
        rewrite Z2Nat.inj_add by (pose proof (level_ups_nonneg (xp p - 100)); lia).
        change (Z.to_nat 1) with 1%nat. rewrite Nat.add_comm, Nat.iter_add.
        simpl. reflexivity.
      * simpl. replace (xp p) with ((xp p - 100) + 1 * 100) in Hfuel by lia.
        rewrite Z.div_add in Hfuel by lia.
        assert (0 <= (xp p - 100) / 100) by (apply Z.div_pos; lia). lia.
    + unfold level_ups. destruct (Z.leb_spec 100 (xp p)); [lia|].
      rewrite orb_false_r. reflexivity.
Qed.

(** Fields after [n] runs of the loop body. *)
Lemma iter_level_up_once_fields (n : nat) nm sp h hp en mx lv x c lu ea ev evd ldc lgt lga :
  Nat.iter n level_up_once (mkPet nm sp h hp en mx lv x c lu ea ev evd ldc lgt lga) =
    mkPet nm sp h hp en mx (lv + Z.of_nat n) (x - 100 * Z.of_nat n)
          (c + 20 * Z.of_nat n) lu ea ev evd ldc lgt lga.
Proof.
  induction n as [|n IH].
  - simpl. f_equal; lia.
  - rewrite Nat.iter_succ, IH. unfold level_up_once, set_coins, set_level, set_xp.
    cbn [name species hunger happiness energy max_energy level xp coins last_updated
         evolve_at evolution evolved last_daily_claim last_gift_time last_gift_amount].
    f_equal; lia.
Qed.

Lemma iter_level_up_once (n : nat) (p : Pet) :
  Nat.iter n level_up_once p =
    set_coins (coins p + 20 * Z.of_nat n)
      (set_level (level p + Z.of_nat n) (set_xp (xp p - 100 * Z.of_nat n) p)).
Proof. destruct p. apply iter_level_up_once_fields. Qed.

Lemma level_ups_remainder (x : Z) :
  x - 100 * level_ups x < 100 /\ (0 <= x -> 0 <= x - 100 * level_ups x).
Proof.
  unfold level_ups. destruct (Z.leb_spec 100 x).
  - pose proof (Z.mod_pos_bound x 100 ltac:(lia)).
    pose proof (Z.div_mod x 100 ltac:(lia)). lia.
  - lia.
Qed.

(** The loop leaves through its condition: the fuel it is given never
    runs out before [xp < 100]. *)
Lemma while_xp_ge_100_exits (l : bool) (p : Pet) :
  xp (snd (level_up_loop (loop_fuel p) l p)) < 100.
Proof.
  rewrite level_up_loop_iter by (unfold loop_fuel; lia).
  simpl. rewrite iter_level_up_once. simpl.
  rewrite Z2Nat.id by apply level_ups_nonneg.
  apply level_ups_remainder.
Qed.

(** The loop is the [while]: it satisfies the unfolding equation of
    [while self.xp >= 100: body]. *)
Lemma while_xp_ge_100_unfold (l : bool) (p : Pet) :
  level_up_loop (loop_fuel p) l p =
    if 100 <=? xp p
    then level_up_loop (loop_fuel (level_up_once p)) true (level_up_once p)
    else (l, p).
Proof.
  rewrite level_up_loop_iter by (unfold loop_fuel; lia).
  destruct (Z.leb_spec 100 (xp p)) as [Hge|Hlt].
  - rewrite level_up_loop_iter by (unfold loop_fuel; lia).
    rewrite orb_true_r. simpl (true || _). f_equal.
    rewrite (level_ups_step (xp p) Hge).
    rewrite Z2Nat.inj_add by (pose proof (level_ups_nonneg (xp p - 100)); lia).
    change (Z.to_nat 1) with 1%nat. rewrite Nat.add_comm, Nat.iter_add.
    reflexivity.
  - rewrite orb_false_r. unfold level_ups.
    destruct (Z.leb_spec 100 (xp p)); [lia|]. reflexivity.
Qed.

(** Closed form of [_gain_xp]. *)
Lemma gain_xp_closed_form (amount : Z) (p : Pet) :
  let x := xp p + amount in
  let k := level_ups x in
  let newly := (0 <? k) && negb (evolved p) && (evolve_at p <=? level p + k) in
  _gain_xp amount p =
    (newly,
     set_evolved (evolved p || newly)
       (set_coins (coins p + 20 * k) (set_level (level p + k) (set_xp (x - 100 * k) p)))).
Proof.
  intros x k newly.
  pose proof (level_ups_nonneg x) as Hk.
  unfold _gain_xp. rewrite !bind_run. unfold gets, modify, eval, exec. simpl.
  rewrite level_up_loop_iter by (unfold loop_fuel; lia).
  simpl (xp (set_xp _ _)). fold x. fold k.
  assert (Hl : false || (100 <=? x) = (0 <? k)).
  { unfold k, level_ups. destruct (Z.leb_spec 100 x) as [Hge|Hlt]; simpl.
    - symmetry. apply Z.ltb_lt.
      pose proof (Z.div_le_mono 100 x 100 ltac:(lia) Hge) as Hd.
      rewrite Z.div_same in Hd; lia.
    - reflexivity. }
  rewrite Hl, iter_level_up_once, Z2Nat.id by exact Hk.
  destruct p; subst newly; cbn.
  destruct (_ && _ && _); rewrite ?orb_true_r, ?orb_false_r; reflexivity.
Qed.



Example gain_xp_two_levels :
  _gain_xp 250 (mkPet "Tom" "cat" 30 60 100 100 3 10 50 0 5 (Some "Big Cat") false 0 0 0)
  = (true, mkPet "Tom" "cat" 30 60 100 100 5 60 90 0 5 (Some "Big Cat") true 0 0 0).
Proof. reflexivity. Qed.

(** ** The time-decay routine *)

Lemma refresh_no_elapsed (e : Env) (p : Pet) :
  Qltb 0 (now e - last_updated p) = false -> refresh e p = (tt, p).
Proof.
  intros H. unfold refresh. rewrite bind_run. unfold gets, eval, exec. simpl.
  rewrite H. reflexivity.
Qed.

Lemma refresh_elapsed (e : Env) (p : Pet) :
  Qltb 0 (now e - last_updated p) = true ->
  exec (refresh e) p =
    set_last_updated (now e)
      (exec (_maybe_random_gift e) (exec (_apply_time_decay (now e - last_updated p)) p)).
Proof.
  intros H. unfold refresh, exec at 1. rewrite bind_run. unfold gets at 1, eval at 1, exec at 1.
  cbn [fst snd]. rewrite H. rewrite !bind_run. reflexivity.
Qed.

Lemma Qltb_0_diag (t : Q) : Qltb 0 (t - t) = false.
Proof. apply Qltb_ge, Qle_lteq. right. apply Qplus_opp_r. Qed.

(** Within one instant the routine is idempotent. *)
Lemma refresh_idem (e : Env) (p : Pet) :
  refresh e (exec (refresh e) p) = (tt, exec (refresh e) p).
Proof.
  destruct (Qltb 0 (now e - last_updated p)) eqn:H.
  - apply refresh_no_elapsed. rewrite (refresh_elapsed e p H).
    cbn [last_updated set_last_updated]. apply Qltb_0_diag.
  - unfold exec. rewrite (refresh_no_elapsed e p H). simpl.
    apply refresh_no_elapsed, H.
Qed.

(** An action that opens with [self.refresh()] sees only the refreshed
    pet. *)
Lemma refresh_then {A} (e : Env) (k : M A) (p : Pet) :
  (refresh e ;; k) p = (refresh e ;; k) (exec (refresh e) p).
Proof.
  assert (H : exec (refresh e) (exec (refresh e) p) = exec (refresh e) p)
    by (unfold exec at 1; rewrite refresh_idem; reflexivity).
  rewrite !bind_run, H. reflexivity.
Qed.

Lemma refresh_then_run {A} (e : Env) (k : M A) (p : Pet) :
  (refresh e ;; k) p = k (exec (refresh e) p).
Proof. apply bind_run. Qed.

(** ** Which methods refresh first *)

(** [feed], [play], [rest], [do_job] and [status] open with
    [self.refresh()]: their outcome on a pet is their outcome on the
    refreshed pet. *)
Lemma refreshing_methods_refresh_first (ctime : Q -> string) (round1 : Q -> Q) (e : Env) (p : Pet) :
  let q := exec (refresh e) p in
  (forall u s, feed e u s p = feed e u s q) /\
  (forall m, play e m p = play e m q) /\
  (forall m, rest e m p = rest e m q) /\
  (forall m, do_job e m p = do_job e m q) /\
  status ctime round1 e p = status ctime round1 e q.
Proof.
  cbv zeta. repeat split; intros; apply refresh_then.
Qed.

(** C1, at the input where it fails.  Ten hours after its last refresh an
    exhausted pet would have recovered 10 energy, enough for the toy; yet
    [buy_item] validates on the stale pet, reports failure and leaves
    [last_updated] behind, where refreshing first lets the purchase
    succeed.  [daily_reward] likewise touches nothing but [coins] and
    [last_daily_claim]: no decay is applied and [last_updated] stays at 0,
    while [refresh] at that instant moves it to 36000. *)
Theorem buy_item_and_daily_reward_skip_refresh :
  buy_item "toy" tired_tom = ((false, TooTiredForToy "Tom"), tired_tom) /\
  fst (eval (refresh ten_hours_later ;; buy_item "toy") tired_tom) = true /\
  exec (daily_reward day_date ten_hours_later) tired_tom =
    set_last_daily_claim 36000 (set_coins 70 tired_tom) /\
  last_updated (exec (refresh ten_hours_later) tired_tom) = 36000%Q /\
  exec (refresh ten_hours_later) tired_tom <> tired_tom.
Proof.
  repeat split; try (vm_compute; reflexivity).
  vm_compute. discriminate.
Qed.

(** ** The shop catalogue *)

(** Replace a closed subterm by its value. *)
Ltac evaluate t v :=
  let E := fresh "E" in
  assert (E : t = v) by (vm_compute; reflexivity); rewrite E; clear E.

Lemma shop_other (k : string) :
  k <> "food" -> k <> "toy" -> k <> "energy_drink" -> SHOP_ITEMS !! k = None.
Proof.
  intros. unfold SHOP_ITEMS. rewrite !lookup_insert_ne by congruence.
  apply lookup_empty.
Qed.

Lemma buy_item_unknown (k : string) (p : Pet) :
  k <> "food" -> k <> "toy" -> k <> "energy_drink" ->
  buy_item k p = ((false, InvalidItem), p).
Proof.
  intros. unfold buy_item. rewrite shop_other by assumption. reflexivity.
Qed.

Lemma buy_item_food (p : Pet) :
  buy_item "food" p =
    if coins p <? 5 then ((false, NotEnoughCoins), p)
    else
      let p1 := set_happiness (py_min 100 (happiness p + inject_Z 5))
                  (set_hunger (py_max 0 (hunger p - inject_Z 25))
                     (set_coins (coins p - 5) p)) in
      let p2 := exec (_gain_xp 5) p1 in
      ((true, UsedFood (hunger p2)), p2).
Proof.
  unfold buy_item. cbv zeta.
  replace (SHOP_ITEMS !! "food") with
    (Some (<["price" := 5]> (<["hunger_restore" := 25]> (<["happiness" := 5]> ∅))
             : gmap string Z))
    by (unfold SHOP_ITEMS; rewrite ?lookup_insert_ne by discriminate;
        rewrite lookup_insert_eq; reflexivity).
  set (item := <["price" := 5]> _).
  evaluate (falsy_item (Some item)) false.
  evaluate (item_at (default ∅ (Some item)) "price") 5.
  evaluate (item_at (default ∅ (Some item)) "hunger_restore") 25.
  evaluate (item_at (default ∅ (Some item)) "happiness") 5.
  change ("food" =? "food")%string with true. cbv iota.
  rewrite (run_pair _ p). run.
  destruct (coins p <? 5); run; reflexivity.
Qed.

Lemma buy_item_toy (p : Pet) :
  buy_item "toy" p =
    if coins p <? 10 then ((false, NotEnoughCoins), p)
    else if Qltb (energy p) (inject_Z 5)
    then ((false, TooTiredForToy (name p)), set_coins (coins p - 10 + 10) (set_coins (coins p - 10) p))
    else
      let p1 := set_happiness (py_min 100 (happiness p + inject_Z 20))
                  (set_energy (py_max 0 (energy p - inject_Z 5))
                     (set_coins (coins p - 10) p)) in
      let p2 := exec (_gain_xp 10) p1 in
      ((true, PlayedWithToy (energy p2)), p2).
Proof.
  unfold buy_item. cbv zeta.
  replace (SHOP_ITEMS !! "toy") with
    (Some (<["price" := 10]> (<["hunger_restore" := 0]>
             (<["happiness" := 20]> (<["energy_cost" := 5]> ∅))) : gmap string Z))
    by (unfold SHOP_ITEMS; rewrite ?lookup_insert_ne by discriminate;
        rewrite lookup_insert_eq; reflexivity).
  set (item := <["price" := 10]> _).
  evaluate (falsy_item (Some item)) false.
  evaluate (item_at (default ∅ (Some item)) "price") 10.
  evaluate (item_at (default ∅ (Some item)) "energy_cost") 5.
  evaluate (item_at (default ∅ (Some item)) "happiness") 20.
  change ("toy" =? "food")%string with false.
  change ("toy" =? "toy")%string with true. cbv iota.
  rewrite (run_pair _ p). run.
  destruct (coins p <? 10); run; [reflexivity|].
  destruct (Qltb (energy p) (inject_Z 5)); run; reflexivity.
Qed.

Lemma buy_item_energy_drink (p : Pet) :
  buy_item "energy_drink" p =
    if coins p <? 8 then ((false, NotEnoughCoins), p)
    else
      let p1 := set_happiness (py_min 100 (happiness p + inject_Z 2))
                  (set_energy (py_min (max_energy p) (energy p + inject_Z 30))
                     (set_coins (coins p - 8) p)) in
      let p2 := exec (_gain_xp 7) p1 in
      ((true, DrankEnergyDrink (energy p2)), p2).
Proof.
  unfold buy_item. cbv zeta.
  replace (SHOP_ITEMS !! "energy_drink") with
    (Some (<["price" := 8]> (<["energy_restore" := 30]> (<["happiness" := 2]> ∅))
             : gmap string Z))
    by (unfold SHOP_ITEMS; rewrite ?lookup_insert_ne by discriminate;
        rewrite lookup_insert_eq; reflexivity).
  set (item := <["price" := 8]> _).
  evaluate (falsy_item (Some item)) false.
  evaluate (item_at (default ∅ (Some item)) "price") 8.
  evaluate (item_at (default ∅ (Some item)) "energy_restore") 30.
  evaluate (item_at (default ∅ (Some item)) "happiness") 2.
  change ("energy_drink" =? "food")%string with false.
  change ("energy_drink" =? "toy")%string with false.
  change ("energy_drink" =? "energy_drink")%string with true. cbv iota.
  rewrite (run_pair _ p). run.
  destruct (coins p <? 8); run; reflexivity.
Qed.

(** The refund restores the price taken. *)
Lemma refund_restores (c : Z) (p : Pet) :
  set_coins (coins p - c + c) (set_coins (coins p - c) p) = p.
Proof.
  destruct p. unfold set_coins. simpl. f_equal. lia.
Qed.

(** [buy_item] and [daily_reward] never move [last_updated]: whatever the
    time of the call, no refresh takes place. *)
Lemma buy_item_keeps_last_updated (k : string) (p : Pet) :
  last_updated (exec (buy_item k) p) = last_updated p.
Proof.
  unfold exec.
  destruct (String.eqb_spec k "food") as [->|Hf].
  { rewrite buy_item_food. destruct (coins p <? 5); [reflexivity|].
    cbv zeta. cbn [snd]. unfold exec. rewrite gain_xp_closed_form. reflexivity. }
  destruct (String.eqb_spec k "toy") as [->|Ht].
  { rewrite buy_item_toy. destruct (coins p <? 10); [reflexivity|].
    destruct (Qltb (energy p) _); [reflexivity|].
    cbv zeta. cbn [snd]. unfold exec. rewrite gain_xp_closed_form. reflexivity. }
  destruct (String.eqb_spec k "energy_drink") as [->|Hd].
  { rewrite buy_item_energy_drink. destruct (coins p <? 8); [reflexivity|].
    cbv zeta. cbn [snd]. unfold exec. rewrite gain_xp_closed_form. reflexivity. }
  rewrite buy_item_unknown by assumption. reflexivity.
Qed.

Lemma daily_reward_keeps_last_updated (local_date : Q -> string) (e : Env) (p : Pet) :
  last_updated (exec (daily_reward local_date e) p) = last_updated p.
Proof.
  unfold daily_reward. run. destruct (negb (bool_decide _)); run; reflexivity.
Qed.

(** ** Failure policy *)


(** What a refused action returns and leaves, case by case. *)
Lemma failed_action_run
    (local_date : Q -> string) (e : Env) (a : Action) (p : Pet) :
  precondition_fails local_date e a (validated_state e a p) = true ->
  exists msg : Msg,
    perform local_date e a p = ((false, msg), validated_state e a p).
Proof.
  destruct a as [|m|m|m|k|]; cbn [perform validated_state precondition_fails].
  - intros H. unfold feed. rewrite refresh_then_run.
    generalize dependent (exec (refresh e) p). intros q H.
    rewrite (run_pair _ q). run. rewrite H. run. eauto.
  - intros H. unfold play. rewrite refresh_then_run.
    generalize dependent (exec (refresh e) p). intros q H.
    rewrite (run_pair _ q). run. rewrite H. run. eauto.
  - discriminate.
  - intros H. unfold do_job. rewrite refresh_then_run.
    generalize dependent (exec (refresh e) p). intros q H.
    rewrite (run_pair _ q). destruct (m <=? 0); run; [eauto|].
    simpl in H. rewrite H. run. eauto.
  - destruct (String.eqb_spec k "food") as [->|Hf].
    { intros H. rewrite buy_item_food, H. eauto. }
    destruct (String.eqb_spec k "toy") as [->|Ht].
    { intros H. rewrite buy_item_toy.
      destruct (coins p <? 10); [eauto|]. simpl in H. rewrite H.
      rewrite refund_restores. eauto. }
    destruct (String.eqb_spec k "energy_drink") as [->|Hd].
    { intros H. rewrite buy_item_energy_drink, H. eauto. }
    intros _. rewrite buy_item_unknown by assumption. eauto.
  - intros H. apply andb_true_iff in H as [Ht Hd].
    apply String.eqb_eq in Hd.
    unfold daily_reward. rewrite (run_pair _ p). run.
    rewrite Ht, Hd, bool_decide_eq_true_2 by reflexivity. run. eauto.
Qed.

(** Conversely an action reports failure only when its precondition
    fails. *)
Lemma failure_only_on_precondition
    (local_date : Q -> string) (e : Env) (a : Action) (p : Pet) :
  fst (eval (perform local_date e a) p) = false ->
  precondition_fails local_date e a (validated_state e a p) = true.
Proof.
  destruct a as [|m|m|m|k|]; cbn [perform validated_state precondition_fails].
  - unfold feed, eval. rewrite refresh_then_run.
    generalize (exec (refresh e) p). intros q.
    rewrite (run_pair _ q). run.
    destruct (coins q <? FEED_COST); [reflexivity|]. run. discriminate.
  - unfold play, eval. rewrite refresh_then_run.
    generalize (exec (refresh e) p). intros q.
    rewrite (run_pair _ q). run.
    destruct (Qltb (energy q) _); [reflexivity|]. run. discriminate.
  - unfold rest, eval. rewrite refresh_then_run.
    generalize (exec (refresh e) p). intros q.
    rewrite (run_pair _ q). run. discriminate.
  - unfold do_job, eval. rewrite refresh_then_run.
    generalize (exec (refresh e) p). intros q.
    rewrite (run_pair _ q). destruct (m <=? 0); [reflexivity|]. run.
    destruct (Qltb (energy q) _); [reflexivity|]. run. discriminate.
  - unfold eval.
    destruct (String.eqb_spec k "food") as [->|Hf].
    { rewrite buy_item_food. destruct (coins p <? 5); [reflexivity|discriminate]. }
    destruct (String.eqb_spec k "toy") as [->|Ht].
    { rewrite buy_item_toy. destruct (coins p <? 10); [reflexivity|].
      destruct (Qltb (energy p) _); [reflexivity|discriminate]. }
    destruct (String.eqb_spec k "energy_drink") as [->|Hd].
    { rewrite buy_item_energy_drink. destruct (coins p <? 8); [reflexivity|discriminate]. }
    reflexivity.
  - unfold daily_reward, eval. rewrite (run_pair _ p). run.
    destruct (truthy (last_daily_claim p)); cbn [andb].
    + case_bool_decide as Hd; run; [|discriminate].
      intros _. apply String.eqb_eq. congruence.
    + rewrite bool_decide_eq_false_2 by discriminate. run. discriminate.
Qed.




(** With no time elapsed since [last_updated] the validated state is the
    pet itself: a failed action then changes nothing at all. *)
Corollary failed_action_without_elapsed_time
    (local_date : Q -> string) (e : Env) (a : Action) (p : Pet) :
  Qltb 0 (now e - last_updated p) = false ->
  fst (eval (perform local_date e a) p) = false ->
  exists msg : Msg, perform local_date e a p = ((false, msg), p).
Proof.
  intros Hnow Hfail.
  assert (Hq : validated_state e a p = p).
  { destruct a; cbn [validated_state]; try reflexivity;
      unfold exec; rewrite refresh_no_elapsed by assumption; reflexivity. }
  destruct (failed_action_run local_date e a p) as [msg Hm].
  { apply failure_only_on_precondition, Hfail. }
  exists msg. rewrite Hm, Hq. reflexivity.
Qed.


(** ** Ranges of the clamped attributes *)

Lemma gain_xp_in_range (amount : Z) (p : Pet) :
  in_range (exec (_gain_xp amount) p) <-> in_range p.
Proof.
  unfold exec. rewrite gain_xp_closed_form. unfold in_range. cbn. reflexivity.
Qed.

Lemma apply_time_decay_in_range (seconds : Q) (p : Pet) :
  in_range p -> in_range (exec (_apply_time_decay seconds) p).
Proof.
  intros (Hh0 & Hh1 & Hp0 & Hp1 & He0 & He1).
  unfold _apply_time_decay.
  destruct (Qle_bool (seconds / 3600) 0) eqn:Hours.
  - unfold exec, ret. cbn. repeat split; assumption.
  - assert (Hpos : (0 < seconds / 3600)%Q).
    { apply Qnot_le_lt. intros Hle. apply Qle_bool_iff in Hle. congruence. }
    set (hours := (seconds / 3600)%Q) in *.
    assert (Hmx : (0 <= max_energy p)%Q) by (eapply Qle_trans; eassumption).
    run.
    set (h' := py_min 100 (hunger p + HUNGER_INCREASE_PER_HOUR * hours)).
    set (en' := py_max 0 (py_min (max_energy p) (energy p + ENERGY_RECOVER_PER_HOUR * hours))).
    assert (Hh' : (0 <= h')%Q /\ (h' <= 100)%Q).
    { split; [apply py_min_glb|apply py_min_le_l].
      - discriminate.
      - unfold HUNGER_INCREASE_PER_HOUR. lra. }
    assert (Hen' : (0 <= en')%Q /\ (en' <= max_energy p)%Q).
    { split; [apply py_max_ge_l|apply py_max_lub; [assumption|apply py_min_le_l]]. }
    destruct (Qltb 70 h' || Qltb en' 20); run; unfold in_range; cbn.
    + repeat split; try tauto.
      * apply py_max_ge_l.
      * apply py_max_lub; [discriminate|]. unfold HAPPINESS_DECAY_PER_HOUR. lra.
    + repeat split; tauto.
Qed.

Lemma maybe_random_gift_in_range (e : Env) (p : Pet) :
  in_range p -> in_range (exec (_maybe_random_gift e) p).
Proof.
  intros H. unfold _maybe_random_gift.
  destruct (Qltb (rand e) RANDOM_GIFT_CHANCE); run; exact H.
Qed.

Lemma refresh_in_range (e : Env) (p : Pet) :
  in_range p -> in_range (exec (refresh e) p).
Proof.
  intros H. destruct (Qltb 0 (now e - last_updated p)) eqn:El.
  - rewrite refresh_elapsed by assumption.
    apply (apply_time_decay_in_range (now e - last_updated p)) in H.
    apply (maybe_random_gift_in_range e) in H. exact H.
  - unfold exec. rewrite refresh_no_elapsed by assumption. exact H.
Qed.

Lemma inject_Z_nonneg (m : Z) : 0 <= m -> (0 <= inject_Z m)%Q.
Proof. intros H. change 0%Q with (inject_Z 0). rewrite <- Zle_Qle. exact H. Qed.

(** For durations that are not negative every action keeps the clamped
    attributes in their ranges. *)
Lemma in_range_preserved (local_date : Q -> string) (e : Env) (a : Action) (p : Pet) :
  minutes_nonneg a -> in_range p -> in_range (exec (perform local_date e a) p).
Proof.
  intros Hm Hp.
  destruct a as [|m|m|m|k|]; cbn [perform minutes_nonneg] in *.
  - unfold feed. run. apply (refresh_in_range e) in Hp.
    generalize dependent (exec (refresh e) p). intros q (Hh0 & Hh1 & Hp0 & Hp1 & He0 & He1).
    destruct (coins q <? FEED_COST); run; [repeat split; assumption|].
    apply gain_xp_in_range. unfold in_range; cbn. repeat split; try assumption.
    + apply py_max_ge_l.
    + apply py_max_lub; [discriminate|]. unfold inject_Z. lra.
    + apply py_min_glb; [discriminate|]. unfold inject_Z. lra.
    + apply py_min_le_l.
  - apply inject_Z_nonneg in Hm.
    unfold play. run. apply (refresh_in_range e) in Hp.
    generalize dependent (exec (refresh e) p). intros q (Hh0 & Hh1 & Hp0 & Hp1 & He0 & He1).
    destruct (Qltb (energy q) _) eqn:Hc; run; [repeat split; assumption|].
    apply Qltb_ge in Hc.
    apply gain_xp_in_range. unfold in_range; cbn. repeat split; try assumption.
    + apply py_min_glb; [discriminate|]. lra.
    + apply py_min_le_l.
    + apply py_max_ge_l.
    + apply py_max_lub; lra.
  - apply inject_Z_nonneg in Hm.
    unfold rest. run. apply (refresh_in_range e) in Hp.
    generalize dependent (exec (refresh e) p). intros q (Hh0 & Hh1 & Hp0 & Hp1 & He0 & He1).
    unfold in_range; cbn. repeat split; try assumption.
    + apply py_min_glb; [discriminate|]. lra.
    + apply py_min_le_l.
    + apply py_min_glb; lra.
    + apply py_min_le_l.
  - unfold do_job. run. apply (refresh_in_range e) in Hp.
    generalize dependent (exec (refresh e) p). intros q (Hh0 & Hh1 & Hp0 & Hp1 & He0 & He1).
    destruct (Z.leb_spec m 0) as [|Hpos]; run; [repeat split; assumption|].
    assert (Hq : (0 <= inject_Z m)%Q) by (apply inject_Z_nonneg; lia).
    destruct (Qltb (energy q) _) eqn:Hc; run; [repeat split; assumption|].
    apply Qltb_ge in Hc.
    apply gain_xp_in_range. unfold in_range; cbn. repeat split; try assumption.
    + apply py_max_ge_l.
    + apply py_max_lub; lra.
  - destruct Hp as (Hh0 & Hh1 & Hp0 & Hp1 & He0 & He1). unfold exec.
    destruct (String.eqb_spec k "food") as [->|Hf].
    { rewrite buy_item_food. destruct (coins p <? 5); cbn [snd]; [repeat split; assumption|].
      apply gain_xp_in_range. unfold in_range; cbn. repeat split; try assumption.
      + apply py_max_ge_l.
      + apply py_max_lub; [discriminate|]. unfold inject_Z. lra.
      + apply py_min_glb; [discriminate|]. unfold inject_Z. lra.
      + apply py_min_le_l. }
    destruct (String.eqb_spec k "toy") as [->|Ht].
    { rewrite buy_item_toy. destruct (coins p <? 10); cbn [snd]; [repeat split; assumption|].
      destruct (Qltb (energy p) _) eqn:Hc; cbn [snd];
        [rewrite refund_restores; repeat split; assumption|].
      apply Qltb_ge in Hc. unfold inject_Z in Hc.
      apply gain_xp_in_range. unfold in_range; cbn. repeat split; try assumption.
      + apply py_min_glb; [discriminate|]. unfold inject_Z. lra.
      + apply py_min_le_l.
      + apply py_max_ge_l.
      + apply py_max_lub; unfold inject_Z; lra. }
    destruct (String.eqb_spec k "energy_drink") as [->|Hd].
    { rewrite buy_item_energy_drink.
      destruct (coins p <? 8); cbn [snd]; [repeat split; assumption|].
      apply gain_xp_in_range. unfold in_range; cbn. repeat split; try assumption.
      + apply py_min_glb; [discriminate|]. unfold inject_Z. lra.
      + apply py_min_le_l.
      + apply py_min_glb; unfold inject_Z; lra.
      + apply py_min_le_l. }
    rewrite buy_item_unknown by assumption. repeat split; assumption.
  - unfold daily_reward. run.
    destruct (negb (bool_decide _)); run; exact Hp.
Qed.

(** C3, at the inputs where it fails.  [play] and [rest] accept a
    negative duration: playing for -10 minutes raises the energy of a pet
    already at its maximum to 105, playing for -200 minutes takes 120 off
    its happiness of 60, and resting for -200 minutes takes 160 off its
    energy of 100.  The pet started within every documented range. *)
Theorem negative_minutes_leave_ranges :
  in_range tom /\
  fst (eval (play at_time_zero (-10)) tom) = true /\
  fst (eval (play at_time_zero (-200)) tom) = true /\
  fst (eval (rest at_time_zero (-200)) tom) = true /\
  (max_energy (exec (play at_time_zero (-10)) tom)
     < energy (exec (play at_time_zero (-10)) tom))%Q /\
  (happiness (exec (play at_time_zero (-200)) tom) < 0)%Q /\
  (energy (exec (rest at_time_zero (-200)) tom) < 0)%Q.
Proof.
  split_and!; try (vm_compute; reflexivity).
  vm_compute. split_and!; discriminate.
Qed.

(** ** Normalisation of [xp] *)

Lemma gain_xp_normal (amount : Z) (p : Pet) :
  0 <= xp p + amount -> xp_normal (exec (_gain_xp amount) p).
Proof.
  intros H. unfold exec. rewrite gain_xp_closed_form. unfold xp_normal. cbn.
  pose proof (level_ups_remainder (xp p + amount)). lia.
Qed.

Lemma refresh_xp (e : Env) (p : Pet) : xp (exec (refresh e) p) = xp p.
Proof.
  destruct (Qltb 0 (now e - last_updated p)) eqn:El.
  - rewrite refresh_elapsed by assumption. cbn [xp set_last_updated].
    unfold _maybe_random_gift, _apply_time_decay.
    destruct (Qltb (rand e) RANDOM_GIFT_CHANCE), (Qle_bool _ 0); run;
      try reflexivity; destruct (_ || _); run; reflexivity.
  - unfold exec. rewrite refresh_no_elapsed by assumption. reflexivity.
Qed.

Lemma py_int_fifth (m : Z) : py_int (inject_Z m / 5) = Z.quot m 5.
Proof. unfold py_int. cbn. rewrite Z.mul_1_r. reflexivity. Qed.

(** For durations that are not negative every action keeps [xp] within
    [0, 100). *)
Lemma xp_normal_preserved (local_date : Q -> string) (e : Env) (a : Action) (p : Pet) :
  minutes_nonneg a -> xp_normal p -> xp_normal (exec (perform local_date e a) p).
Proof.
  intros Hm Hp.
  assert (Hq : xp_normal (exec (refresh e) p))
    by (unfold xp_normal; rewrite refresh_xp; exact Hp).
  destruct a as [|m|m|m|k|]; cbn [perform minutes_nonneg] in *.
  - unfold feed. run.
    generalize dependent (exec (refresh e) p). clear Hp. intros q Hp.
    pose proof Hp as [Hx0 Hx1].
    destruct (coins q <? FEED_COST); run; [exact Hp|].
    apply gain_xp_normal. cbn. lia.
  - unfold play. run.
    generalize dependent (exec (refresh e) p). clear Hp. intros q Hp.
    pose proof Hp as [Hx0 Hx1].
    destruct (Qltb (energy q) _); run; [exact Hp|].
    apply gain_xp_normal. cbn [xp set_coins set_happiness set_energy].
    rewrite py_int_fifth. pose proof (Z.quot_pos m 5 Hm ltac:(lia)). lia.
  - unfold rest. run. exact Hq.
  - unfold do_job. run.
    generalize dependent (exec (refresh e) p). clear Hp. intros q Hp.
    pose proof Hp as [Hx0 Hx1].
    destruct (m <=? 0); run; [exact Hp|].
    destruct (Qltb (energy q) _); run; [exact Hp|].
    apply gain_xp_normal. cbn. lia.
  - unfold exec.
    destruct (String.eqb_spec k "food") as [->|Hf].
    { rewrite buy_item_food. destruct (coins p <? 5); cbn [snd]; [exact Hp|].
      apply gain_xp_normal. unfold xp_normal in Hp. cbn. lia. }
    destruct (String.eqb_spec k "toy") as [->|Ht].
    { rewrite buy_item_toy. destruct (coins p <? 10); cbn [snd]; [exact Hp|].
      destruct (Qltb (energy p) _); cbn [snd]; [rewrite refund_restores; exact Hp|].
      apply gain_xp_normal. unfold xp_normal in Hp. cbn. lia. }
    destruct (String.eqb_spec k "energy_drink") as [->|Hd].
    { rewrite buy_item_energy_drink. destruct (coins p <? 8); cbn [snd]; [exact Hp|].
      apply gain_xp_normal. unfold xp_normal in Hp. cbn. lia. }
    rewrite buy_item_unknown by assumption. exact Hp.
  - unfold daily_reward. run.
    destruct (negb (bool_decide _)); run; exact Hp.
Qed.

(** C6, at the input where it fails.  [play] accepts a negative duration:
    for -80 minutes the energy check passes, the gain is
    [15 + int(-80 / 5) = -1], and a pet with [xp = 0] is left with
    [xp = -1]. *)
Theorem negative_play_leaves_xp_negative :
  xp_normal tom /\
  fst (eval (play at_time_zero (-80)) tom) = true /\
  xp (exec (play at_time_zero (-80)) tom) = -1.
Proof.
  split; [unfold xp_normal; cbn; lia|].
  split; vm_compute; reflexivity.
Qed.

(** ** The daily reward *)

Lemma daily_reward_run (local_date : Q -> string) (e : Env) (p : Pet) :
  daily_reward local_date e p =
    if truthy (last_daily_claim p) &&
       String.eqb (local_date (last_daily_claim p)) (local_date (now e))
    then ((false, DailyAlreadyClaimed), p)
    else ((true, DailyClaimed DAILY_REWARD_COINS),
          set_last_daily_claim (now e) (set_coins (coins p + DAILY_REWARD_COINS) p)).
Proof.
  unfold daily_reward. rewrite (run_pair _ p). run.
  destruct (truthy (last_daily_claim p)); cbn [andb].
  - destruct (String.eqb_spec (local_date (last_daily_claim p)) (local_date (now e)))
      as [Heq|Hne].
    + rewrite Heq, bool_decide_eq_true_2 by reflexivity. run. reflexivity.
    + rewrite bool_decide_eq_false_2 by congruence. run. reflexivity.
  - rewrite bool_decide_eq_false_2 by discriminate. run. reflexivity.
Qed.

Lemma truthy_pos (t : Q) : (0 < t)%Q -> truthy t = true.
Proof.
  intros H. unfold truthy. apply negb_true_iff, not_true_iff_false.
  intros Heq. apply Qeq_bool_iff in Heq. rewrite Heq in H.
  exact (Qlt_irrefl 0 H).
Qed.

(** C7.  After a successful claim at an instant [now e1] past the epoch,
    a call at [now e2] on any later state [q] of the pet that still
    carries that claim is refused with the already-claimed message and
    leaves [q] (so its [coins] and [last_daily_claim]) as it is when the
    local date of [now e2] is that of [now e1]; when the dates differ it
    succeeds, adds [DAILY_REWARD_COINS] and records [now e2]. *)
Theorem daily_reward_once_per_day
    (local_date : Q -> string) (e1 e2 : Env) (p q : Pet) :
  (0 < now e1)%Q ->
  fst (eval (daily_reward local_date e1) p) = true ->
  last_daily_claim q = last_daily_claim (exec (daily_reward local_date e1) p) ->
  daily_reward local_date e2 q =
    if String.eqb (local_date (now e2)) (local_date (now e1))
    then ((false, DailyAlreadyClaimed), q)
    else ((true, DailyClaimed DAILY_REWARD_COINS),
          set_last_daily_claim (now e2) (set_coins (coins q + DAILY_REWARD_COINS) q)).
Proof.
  intros Hpos Hok Hq. unfold eval, exec in *.
  rewrite daily_reward_run in Hok, Hq.
  destruct (truthy (last_daily_claim p) && _); [discriminate|].
  cbn [snd last_daily_claim set_last_daily_claim] in Hq.
  rewrite daily_reward_run, Hq, (truthy_pos _ Hpos). cbn [andb].
  rewrite String.eqb_sym. reflexivity.
Qed.

Lemma daily_reward_once_per_day_witness :
  let e1 := mkEnv 3600 (1 # 2) 3 in
  let q := exec (daily_reward day_date e1) tom in
  daily_reward day_date (mkEnv 7200 (1 # 2) 3) q = ((false, DailyAlreadyClaimed), q) /\
  fst (eval (daily_reward day_date (mkEnv 90000 (1 # 2) 3)) q) = true.
Proof.
  cbv zeta. split.
  - rewrite (daily_reward_once_per_day day_date (mkEnv 3600 (1 # 2) 3)
               (mkEnv 7200 (1 # 2) 3) tom
               (exec (daily_reward day_date (mkEnv 3600 (1 # 2) 3)) tom)).
    + reflexivity.
    + reflexivity.
    + reflexivity.
    + reflexivity.
  - unfold eval.
    rewrite (daily_reward_once_per_day day_date (mkEnv 3600 (1 # 2) 3)
               (mkEnv 90000 (1 # 2) 3) tom
               (exec (daily_reward day_date (mkEnv 3600 (1 # 2) 3)) tom)).
    + reflexivity.
    + reflexivity.
    + reflexivity.
    + reflexivity.
Defined.

(** A pet that never claimed ([last_daily_claim = 0]) is granted the
    reward whatever the date. *)
Lemma daily_reward_first_claim (local_date : Q -> string) (e : Env) (p : Pet) :
  last_daily_claim p = 0%Q ->
  daily_reward local_date e p =
    ((true, DailyClaimed DAILY_REWARD_COINS),
     set_last_daily_claim (now e) (set_coins (coins p + DAILY_REWARD_COINS) p)).
Proof. intros H. rewrite daily_reward_run, H. reflexivity. Qed.

(** ** Work *)

Lemma gain_xp_name (amount : Z) (p : Pet) : name (exec (_gain_xp amount) p) = name p.
Proof. unfold exec. rewrite gain_xp_closed_form. reflexivity. Qed.

(** [do_job 100] on a pet already refreshed. *)
Lemma do_job_100_run (e : Env) (p : Pet) :
  Qltb 0 (now e - last_updated p) = false ->
  do_job e 100 p =
    if Qltb (energy p) (inject_Z 100 * (3 # 10))
    then ((false, TooTiredToWork (name p)), p)
    else
      let p1 := set_coins (coins p + 20)
                  (set_energy (py_max 0 (energy p - inject_Z 100 * (3 # 10))) p) in
      ((true, Worked (name p) 100 20), exec (_gain_xp 10) p1).
Proof.
  intros Hnow. unfold do_job. rewrite refresh_then_run. unfold exec at 1.
  rewrite refresh_no_elapsed by assumption. cbn [snd].
  change (100 <=? 0) with false. cbv iota zeta.
  change (py_int (inject_Z 100 * JOB_COIN_RATE_PER_MIN)) with 20.
  change (Z.max 1 (100 / 10)) with 10.
  rewrite (run_pair _ p). run.
  destruct (Qltb (energy p) _); run; [reflexivity|].
  rewrite gain_xp_name. reflexivity.
Qed.

(** C8 as stated fails: a pet with energy 100 and no elapsed time, but
    with [xp = 95], levels up while working 100 minutes, so that [xp]
    ends at 5 and [coins] grow by 40. *)
Lemma do_job_100_may_level_up :
  (energy tom_xp95 == 100)%Q /\
  Qltb 0 (now at_time_zero - last_updated tom_xp95) = false /\
  fst (eval (do_job at_time_zero 100) tom_xp95) = true /\
  xp (exec (do_job at_time_zero 100) tom_xp95) <> xp tom_xp95 + 10 /\
  coins (exec (do_job at_time_zero 100) tom_xp95) <> coins tom_xp95 + 20.
Proof.
  repeat split; try (vm_compute; reflexivity); vm_compute; discriminate.
Qed.

(** C8, amended.  With no time elapsed since [last_updated],
    [do_job 100] succeeds exactly when [energy >= 30]; on a pet with
    [energy = 100] whose [xp] is below 90, so that the gain does not reach
    the next level, it leaves [energy = 70], [coins] 20 higher and [xp]
    10 higher. *)
Theorem do_job_100_minutes (e : Env) (p : Pet) :
  (now e - last_updated p <= 0)%Q ->
  (fst (eval (do_job e 100) p) = true <-> (30 <= energy p)%Q) /\
  ((energy p == 100)%Q -> xp p < 90 ->
   (energy (exec (do_job e 100) p) == 70)%Q /\
   coins (exec (do_job e 100) p) = coins p + 20 /\
   xp (exec (do_job e 100) p) = xp p + 10).
Proof.
  intros Hnow. apply Qltb_ge in Hnow.
  unfold eval, exec. rewrite (do_job_100_run e p Hnow).
  split.
  - destruct (Qltb (energy p) _) eqn:Hc; cbn [fst].
    + apply Qltb_lt in Hc. unfold inject_Z in Hc.
      split; [discriminate|]. intros H. exfalso. lra.
    + apply Qltb_ge in Hc. unfold inject_Z in Hc.
      split; [|reflexivity]. intros _. lra.
  - intros Hen Hxp.
    destruct (Qltb (energy p) _) eqn:Hc.
    { apply Qltb_lt in Hc. unfold inject_Z in Hc. exfalso. lra. }
    cbv zeta. cbn [snd]. unfold exec. rewrite gain_xp_closed_form.
    cbn [snd xp coins energy set_evolved set_coins set_level set_xp set_energy].
    assert (Hk : level_ups (xp p + 10) = 0).
    { unfold level_ups. destruct (Z.leb_spec 100 (xp p + 10)); [lia|reflexivity]. }
    rewrite Hk. repeat split; try lia.
    unfold py_max. destruct (Qltb 0 (energy p - _)) eqn:Hpos.
    + unfold inject_Z. lra.
    + apply Qltb_ge in Hpos. unfold inject_Z in Hpos. exfalso. lra.
Qed.

Lemma do_job_100_minutes_witness :
  (fst (eval (do_job at_time_zero 100) tom) = true <-> (30 <= energy tom)%Q) /\
  (energy (exec (do_job at_time_zero 100) tom) == 70)%Q /\
  coins (exec (do_job at_time_zero 100) tom) = coins tom + 20 /\
  xp (exec (do_job at_time_zero 100) tom) = xp tom + 10.
Proof.
  destruct (do_job_100_minutes at_time_zero tom) as [Hreq Heff].
  - vm_compute. discriminate.
  - split; [exact Hreq|]. apply Heff.
    + reflexivity.
    + vm_compute. reflexivity.
Defined.

(** ** Pet creation *)

(** The scenario of the specification: a cat named Tom starts with 50
    coins, hunger 30 and energy 100; feeding it costs 5 coins and lowers
    its hunger by 20. *)
Example create_tom_then_feed :
  PetFactory.create_pet ascii_lower 0 "Tom" "cat" = tom /\
  coins (exec (feed at_time_zero false 20) tom) = 45 /\
  hunger (exec (feed at_time_zero false 20) tom) = 10%Q.
Proof. split_and!; vm_compute; reflexivity. Qed.

Lemma cat_template : TEMPLATES !! "cat" = Some (mkTemplate 100 30 60 5 "Big Cat").
Proof. unfold TEMPLATES. apply lookup_insert_eq. Qed.

Lemma factory_unknown_species (lower : string -> string) (t : Q) (n species : string) :
  TEMPLATES !! lower species = None ->
  PetFactory.create_pet lower t n species =
    mkPet n (lower species) 30 60 100 100 1 0 50 t 5 (Some "Big Cat") false 0 0 0.
Proof.
  intros H. unfold PetFactory.create_pet. rewrite H.
  unfold lookup_total, map_lookup_total. rewrite cat_template. reflexivity.
Qed.

Lemma factory_known_species (lower : string -> string) (t : Q) (n species : string)
    (tpl : Template) :
  TEMPLATES !! lower species = Some tpl ->
  PetFactory.create_pet lower t n species =
    mkPet n (lower species) (inject_Z (t_base_hunger tpl))
          (inject_Z (t_base_happiness tpl)) (inject_Z (t_max_energy tpl))
          (inject_Z (t_max_energy tpl)) 1 0 50 t (t_evolve_at tpl)
          (Some (t_evolution tpl)) false 0 0 0.
Proof. intros H. unfold PetFactory.create_pet. rewrite H. reflexivity. Qed.

(** C9.  Creation strips the name with [str.strip] and fails exactly
    when the stripped name is empty or already registered, leaving the
    registry as it was; otherwise it registers the factory's pet under the
    stripped name.  The factory lower-cases the species with [str.lower]
    and keeps the result as the pet's species; a lower-cased species that
    is no key of [TEMPLATES] yields the attributes of the ["cat"] template,
    one that is a key yields that template's.  This holds for every string,
    [strip] and [lower] being the interpreter's own functions. *)
Theorem create_pet_spec (strip lower : string -> string) (t : Q)
    (raw_name kind : string) (pets : gmap string PetObj) :
  let n := strip raw_name in
  let pet := PetFactory.create_pet lower t n kind in
  let r := PetWorld.create_pet strip lower t raw_name kind pets in
  (fst (fst r) = false <-> n = "" \/ is_Some (pets !! n)) /\
  (fst (fst r) = false -> snd r = pets) /\
  (fst (fst r) = true -> r = ((true, PetCreated n kind), <[n := obj_of_pet pet]> pets)) /\
  species pet = lower kind /\
  name pet = n /\
  (TEMPLATES !! lower kind = None ->
   TEMPLATES !! "cat" = Some (mkTemplate 100 30 60 5 "Big Cat") /\
   pet = mkPet n (lower kind) 30 60 100 100 1 0 50 t 5 (Some "Big Cat") false 0 0 0) /\
  (forall tpl, TEMPLATES !! lower kind = Some tpl ->
   max_energy pet = inject_Z (t_max_energy tpl) /\
   hunger pet = inject_Z (t_base_hunger tpl) /\
   happiness pet = inject_Z (t_base_happiness tpl) /\
   evolve_at pet = t_evolve_at tpl /\
   evolution pet = Some (t_evolution tpl)).
Proof.
  intros n pet r.
  assert (Hcat : TEMPLATES !! lower kind = None ->
                 TEMPLATES !! "cat" = Some (mkTemplate 100 30 60 5 "Big Cat") /\
                 pet = mkPet n (lower kind) 30 60 100 100 1 0 50 t 5
                             (Some "Big Cat") false 0 0 0).
  { intros H. split; [apply cat_template|apply factory_unknown_species, H]. }
  assert (Hknown : forall tpl, TEMPLATES !! lower kind = Some tpl ->
                   max_energy pet = inject_Z (t_max_energy tpl) /\
                   hunger pet = inject_Z (t_base_hunger tpl) /\
                   happiness pet = inject_Z (t_base_happiness tpl) /\
                   evolve_at pet = t_evolve_at tpl /\
                   evolution pet = Some (t_evolution tpl)).
  { intros tpl H. subst pet. rewrite (factory_known_species lower t n kind tpl H).
    split_and!; reflexivity. }
  split_and!; try assumption; try reflexivity;
    subst r; unfold PetWorld.create_pet; fold n; fold pet;
    destruct (String.eqb_spec n "") as [Hn|Hn]; cbn [fst snd];
    try case_bool_decide; cbn [fst snd]; try tauto; try discriminate;
    try reflexivity.
  split; [discriminate|]. intros [Hempty|Hdup]; contradiction.
Qed.

(** On ASCII text: a name padded with a tab, blanks and a newline is
    registered stripped; ["DoG"] is stored as ["dog"] and gets the dog
    template; an unknown species is lower-cased and gets the cat template;
    a name of blanks only is refused. *)
Lemma create_pet_spec_witness :
  PetWorld.create_pet ascii_strip ascii_lower 0 padded_rex "DoG" ∅ =
    ((true, PetCreated "Rex" "DoG"),
     <["Rex" := obj_of_pet (mkPet "Rex" "dog" 35 55 120 120 1 0 50 0 6
                                  (Some "Wolfhound") false 0 0 0)]> ∅) /\
  PetFactory.create_pet ascii_lower 0 "Rex" "UniCorn" =
    mkPet "Rex" "unicorn" 30 60 100 100 1 0 50 0 5 (Some "Big Cat") false 0 0 0 /\
  snd (PetWorld.create_pet ascii_strip ascii_lower 0 "   " "cat" ∅) = ∅.
Proof.
  pose proof (create_pet_spec ascii_strip ascii_lower 0 padded_rex "DoG" ∅)
    as (_ & _ & Hok & _).
  pose proof (create_pet_spec ascii_strip ascii_lower 0 "Rex" "UniCorn" ∅)
    as (_ & _ & _ & _ & _ & Hcat & _).
  pose proof (create_pet_spec ascii_strip ascii_lower 0 "   " "cat" ∅) as (_ & Hfail & _).
  split; [|split].
  - rewrite Hok by reflexivity. vm_compute. reflexivity.
  - apply Hcat. reflexivity.
  - apply Hfail. reflexivity.
Defined.

(** ** Persistence *)

Lemma dict_get_to_dict (o : PetObj) (d : value) :
  dict_get (to_dict o) "name" d = o_name o /\
  dict_get (to_dict o) "species" d = o_species o /\
  dict_get (to_dict o) "hunger" d = o_hunger o /\
  dict_get (to_dict o) "happiness" d = o_happiness o /\
  dict_get (to_dict o) "energy" d = o_energy o /\
  dict_get (to_dict o) "max_energy" d = o_max_energy o /\
  dict_get (to_dict o) "level" d = o_level o /\
  dict_get (to_dict o) "xp" d = o_xp o /\
  dict_get (to_dict o) "coins" d = o_coins o /\
  dict_get (to_dict o) "last_updated" d = o_last_updated o /\
  dict_get (to_dict o) "evolve_at" d = o_evolve_at o /\
  dict_get (to_dict o) "evolution" d = o_evolution o /\
  dict_get (to_dict o) "evolved" d = o_evolved o /\
  dict_get (to_dict o) "last_daily_claim" d = o_last_daily_claim o /\
  dict_get (to_dict o) "last_gift_time" d = o_last_gift_time o /\
  dict_get (to_dict o) "last_gift_amount" d = o_last_gift_amount o.
Proof.
  unfold dict_get, to_dict.
  split_and!;
    (rewrite ?lookup_insert_ne by discriminate; rewrite lookup_insert_eq; reflexivity).
Qed.

(** Reading back what [to_dict] wrote gives the instance itself. *)
Lemma from_dict_to_dict (t : Q) (o : PetObj) : from_dict t (to_dict o) = o.
Proof.
  unfold from_dict, dict_get, to_dict. destruct o.
  cbn [o_name o_species o_hunger o_happiness o_energy o_max_energy o_level o_xp o_coins
       o_last_updated o_evolve_at o_evolution o_evolved o_last_daily_claim
       o_last_gift_time o_last_gift_amount].
  f_equal;
    (rewrite ?lookup_insert_ne by discriminate; rewrite lookup_insert_eq; reflexivity).
Qed.

Lemma load_entry_to_dict (parse_float : string -> option Q) (int_float : Z -> option Q) (t : Q) (o : PetObj) :
  PetWorld.load_entry parse_float int_float t (to_dict o) = reloaded parse_float int_float t o.
Proof.
  unfold PetWorld.load_entry, reloaded. rewrite from_dict_to_dict.
  destruct (dict_get_to_dict o (VFloat t)) as (_ & _ & _ & _ & _ & _ & _ & _ & _ & -> & _).
  destruct (py_float parse_float int_float (o_last_updated o)); reflexivity.
Qed.

(** The loop of [PetWorld.load], entry by entry. *)
Lemma load_lookup (parse_float : string -> option Q) (int_float : Z -> option Q) (t : Q)
    (raw : gmap string (gmap string value)) (pets : gmap string PetObj) (k : string) :
  snd (PetWorld.load parse_float int_float t (Some raw) pets) !! k =
    match raw !! k with
    | Some pdata => Some (PetWorld.load_entry parse_float int_float t pdata)
    | None => pets !! k
    end.
Proof.
  cbn [PetWorld.load snd]. revert k.
  apply (map_fold_weak_ind
           (fun (r : gmap string PetObj) (m : gmap string (gmap string value)) =>
              forall k, r !! k = match m !! k with
                                 | Some pdata => Some (PetWorld.load_entry parse_float int_float t pdata)
                                 | None => pets !! k
                                 end)).
  - intros k. rewrite lookup_empty. reflexivity.
  - intros i x m r Hi IH k. destruct (decide (i = k)) as [->|Hne].
    + rewrite !lookup_insert_eq. reflexivity.
    + rewrite !lookup_insert_ne by assumption. apply IH.
Qed.

(** A typed pet is stored with a float [last_updated]: [PetWorld.load] puts back
    the very same instance. *)
Lemma reloaded_typed (parse_float : string -> option Q) (int_float : Z -> option Q) (t : Q) (p : Pet) :
  reloaded parse_float int_float t (obj_of_pet p) = obj_of_pet p.
Proof. reflexivity. Qed.

Lemma pet_of_obj_of_pet (p : Pet) : pet_of_obj (obj_of_pet p) = Some p.
Proof. destruct p as [? ? ? ? ? ? ? ? ? ? ? [?|] ? ? ? ?]; reflexivity. Qed.

(** C4.  A registry built from a store that [PetWorld.save] has just written holds
    every pet of the saved registry, under the same name, with every
    attribute but [last_updated] exactly as saved; [last_updated] is the
    saved value passed through [float] (the load time when that raises).
    For pets of the engine, whose [last_updated] is a float, the loaded
    registry is the saved one. *)
Theorem save_load_round_trip (parse_float : string -> option Q) (int_float : Z -> option Q) (t : Q)
    (pets : gmap string PetObj) (typed : gmap string Pet) :
  PetWorld.new_world parse_float int_float t (Some (PetWorld.save pets)) = reloaded parse_float int_float t <$> pets /\
  PetWorld.new_world parse_float int_float t (Some (PetWorld.save (obj_of_pet <$> typed))) = obj_of_pet <$> typed.
Proof.
  assert (H : forall w : gmap string PetObj,
            PetWorld.new_world parse_float int_float t (Some (PetWorld.save w)) = reloaded parse_float int_float t <$> w).
  { intros w. apply map_eq. intros k. unfold PetWorld.new_world.
    rewrite load_lookup. unfold PetWorld.save. rewrite !lookup_fmap, lookup_empty.
    destruct (w !! k) as [o|]; cbn; [|reflexivity].
    rewrite load_entry_to_dict. reflexivity. }
  split; [apply H|].
  rewrite H. rewrite <- map_fmap_compose. apply map_fmap_ext.
  intros k p _. apply reloaded_typed.
Qed.

Example round_trip_tom :
  PetWorld.new_world no_numeral out_of_float_range 1000 (Some (PetWorld.save (<["Tom" := obj_of_pet tom]> ∅)))
  !! "Tom" = Some (obj_of_pet tom).
Proof.
  vm_compute. reflexivity.
Qed.

(** ** What [from_dict] accepts *)

Lemma getattr_from_dict (t : Q) (data : gmap string value) (k : string) :
  k ∈ FIELDS ->
  getattr (from_dict t data) k = Some (dict_get data k (field_default t data k)).
Proof.
  unfold FIELDS. intros H.
  repeat (apply elem_of_cons in H as [->|H]; [reflexivity|]).
  apply elem_of_nil in H. contradiction.
Qed.

Lemma getattr_load_entry (parse_float : string -> option Q) (int_float : Z -> option Q) (t : Q)
    (data : gmap string value) (k : string) :
  k <> "last_updated" ->
  getattr (PetWorld.load_entry parse_float int_float t data) k = getattr (from_dict t data) k.
Proof.
  intros Hk. unfold PetWorld.load_entry.
  assert (H : forall v o, getattr (set_o_last_updated v o) k = getattr o k).
  { intros v o. unfold getattr.
    destruct (String.eqb_spec k "last_updated"); [contradiction|]. reflexivity. }
  destruct (py_float _ _); apply H.
Qed.

(** * Further properties of the engine *)

(** ** The action table *)

Lemma py_int_job (m : Z) : py_int (inject_Z m * JOB_COIN_RATE_PER_MIN) = Z.quot m 5.
Proof. unfold py_int. cbn. rewrite Z.mul_1_r. reflexivity. Qed.

Lemma feed_exec (e : Env) (use_item : bool) (food_strength : Z) (p : Pet) :
  exec (feed e use_item food_strength) p =
    let q := exec (refresh e) p in
    if negb use_item && (coins q <? FEED_COST) then q
    else exec (_gain_xp 10) (feed_effect use_item food_strength q).
Proof.
  cbv zeta. unfold feed. run. generalize (exec (refresh e) p). intros q.
  unfold feed_effect. destruct use_item; cbn [negb andb]; run; [reflexivity|].
  destruct (coins q <? FEED_COST); run; reflexivity.
Qed.

(** What an action leaves, in one table: the validated state when the
    precondition fails, the effect followed by the award otherwise. *)
Lemma perform_exec (local_date : Q -> string) (e : Env) (a : Action) (p : Pet) :
  exec (perform local_date e a) p =
    let q := validated_state e a p in
    if precondition_fails local_date e a q then q
    else award (xp_award a) (apply_effect e a q).
Proof.
  cbv zeta. destruct (precondition_fails local_date e a (validated_state e a p)) eqn:Hf.
  { destruct (failed_action_run local_date e a p Hf) as [msg Hm].
    unfold exec. rewrite Hm. reflexivity. }
  destruct a as [|m|m|m|k|];
    cbn [perform validated_state precondition_fails xp_award apply_effect award] in *.
  - rewrite feed_exec. cbv zeta. cbn [negb andb]. rewrite Hf. reflexivity.
  - unfold play. run. generalize dependent (exec (refresh e) p). intros q Hf.
    rewrite Hf. run. rewrite py_int_fifth. reflexivity.
  - unfold rest. run. reflexivity.
  - unfold do_job. run. generalize dependent (exec (refresh e) p). intros q Hf.
    apply orb_false_iff in Hf as [Hm He]. rewrite Hm. run. rewrite He. run.
    reflexivity.
  - unfold exec at 1.
    destruct (String.eqb_spec k "food") as [->|Hfood].
    { rewrite buy_item_food, Hf. reflexivity. }
    destruct (String.eqb_spec k "toy") as [->|Htoy].
    { apply orb_false_iff in Hf as [Hc He]. rewrite buy_item_toy, Hc, He. reflexivity. }
    destruct (String.eqb_spec k "energy_drink") as [->|Hdrink].
    { rewrite buy_item_energy_drink, Hf. reflexivity. }
    discriminate.
  - unfold exec. rewrite daily_reward_run, Hf. reflexivity.
Qed.

(** An action succeeds exactly when its precondition holds. *)
Lemma perform_ok (local_date : Q -> string) (e : Env) (a : Action) (p : Pet) :
  fst (eval (perform local_date e a) p) =
    negb (precondition_fails local_date e a (validated_state e a p)).
Proof.
  destruct (precondition_fails local_date e a (validated_state e a p)) eqn:Hf.
  - destruct (failed_action_run local_date e a p Hf) as [msg Hm].
    unfold eval. rewrite Hm. reflexivity.
  - destruct (fst (eval (perform local_date e a) p)) eqn:Hok; [reflexivity|].
    apply failure_only_on_precondition in Hok. congruence.
Qed.

(** ** What each step leaves alone *)

Lemma refresh_frame (e : Env) (p : Pet) :
  let q := exec (refresh e) p in
  name q = name p /\ species q = species p /\ max_energy q = max_energy p /\
  level q = level p /\ xp q = xp p /\ evolve_at q = evolve_at p /\
  evolution q = evolution p /\ evolved q = evolved p /\
  last_daily_claim q = last_daily_claim p.
Proof.
  cbv zeta. destruct (Qltb 0 (now e - last_updated p)) eqn:El.
  - rewrite refresh_elapsed by assumption.
    unfold _maybe_random_gift, _apply_time_decay.
    destruct (Qltb (rand e) RANDOM_GIFT_CHANCE), (Qle_bool _ 0); run;
      try (split_and!; reflexivity); destruct (_ || _); run; split_and!; reflexivity.
  - unfold exec. rewrite refresh_no_elapsed by assumption. split_and!; reflexivity.
Qed.

(** The refresh changes [coins] by the gift it draws, if it draws one. *)
Lemma refresh_coins (e : Env) (p : Pet) :
  coins (exec (refresh e) p) =
    coins p + (if Qltb 0 (now e - last_updated p) && Qltb (rand e) RANDOM_GIFT_CHANCE
               then randint e else 0).
Proof.
  destruct (Qltb 0 (now e - last_updated p)) eqn:El; cbn [andb].
  - rewrite refresh_elapsed by assumption. cbn [coins set_last_updated].
    unfold _maybe_random_gift, _apply_time_decay.
    destruct (Qltb (rand e) RANDOM_GIFT_CHANCE), (Qle_bool _ 0); run;
      try lia; destruct (_ || _); run; lia.
  - unfold exec. rewrite refresh_no_elapsed by assumption. cbn. lia.
Qed.

Lemma validated_frame (e : Env) (a : Action) (p : Pet) :
  let q := validated_state e a p in
  level q = level p /\ xp q = xp p /\ evolved q = evolved p /\
  evolve_at q = evolve_at p /\ max_energy q = max_energy p.
Proof.
  cbv zeta. pose proof (refresh_frame e p) as H. cbv zeta in H.
  destruct a; cbn [validated_state]; try tauto; split_and!; reflexivity.
Qed.

Lemma effect_frame (e : Env) (a : Action) (q : Pet) :
  let s := apply_effect e a q in
  level s = level q /\ xp s = xp q /\ evolved s = evolved q /\
  evolve_at s = evolve_at q /\ max_energy s = max_energy q /\
  last_updated s = last_updated q.
Proof.
  cbv zeta. destruct a as [|m|m|m|k|]; cbn [apply_effect]; unfold feed_effect;
    try (split_and!; reflexivity).
  destruct (k =? "food")%string; [split_and!; reflexivity|].
  destruct (k =? "toy")%string; [split_and!; reflexivity|].
  destruct (k =? "energy_drink")%string; split_and!; reflexivity.
Qed.

Lemma award_fields (o : option Z) (s : Pet) :
  let r := award o s in
  level s <= level r /\
  coins r = coins s + 20 * (level r - level s) /\
  (evolved s = true -> evolved r = true) /\
  hunger r = hunger s /\ happiness r = happiness s /\ energy r = energy s /\
  max_energy r = max_energy s /\ last_updated r = last_updated s /\
  last_daily_claim r = last_daily_claim s /\ evolve_at r = evolve_at s.
Proof.
  cbv zeta. destruct o as [amount|]; cbn [award].
  - unfold exec. rewrite gain_xp_closed_form. cbn.
    pose proof (level_ups_nonneg (xp s + amount)).
    split_and!; try reflexivity; try lia.
    intros ->. reflexivity.
  - split_and!; try reflexivity; try lia. auto.
Qed.

(** The coins a successful action moves, and why they never run out. *)
Lemma effect_coins (local_date : Q -> string) (e : Env) (a : Action) (q : Pet) :
  precondition_fails local_date e a q = false ->
  coins (apply_effect e a q) = coins q + coin_delta a /\
  (0 <= coins q -> 0 <= coins q + coin_delta a).
Proof.
  destruct a as [|m|m|m|k|];
    cbn [precondition_fails apply_effect coin_delta]; unfold feed_effect;
    unfold FEED_COST, PLAY_COIN_REWARD, REST_COIN_REWARD, DAILY_REWARD_COINS; intros Hf.
  - cbn. apply Z.ltb_ge in Hf. lia.
  - cbn. lia.
  - cbn. lia.
  - cbn. rewrite py_int_job. apply orb_false_iff in Hf as [Hm _].
    apply Z.leb_gt in Hm. pose proof (Z.quot_pos m 5 ltac:(lia) ltac:(lia)). lia.
  - destruct (k =? "food")%string; [cbn; apply Z.ltb_ge in Hf; lia|].
    destruct (k =? "toy")%string.
    { apply orb_false_iff in Hf as [Hc _]. cbn. apply Z.ltb_ge in Hc. lia. }
    destruct (k =? "energy_drink")%string; [cbn; apply Z.ltb_ge in Hf; lia|].
    discriminate.
  - cbn. lia.
Qed.

Lemma perform_level_le (local_date : Q -> string) (e : Env) (a : Action) (p : Pet) :
  level p <= level (exec (perform local_date e a) p).
Proof.
  rewrite perform_exec. cbv zeta.
  pose proof (validated_frame e a p) as (Hl & _). cbv zeta in Hl.
  destruct (precondition_fails _ _ _ _); [lia|].
  pose proof (effect_frame e a (validated_state e a p)) as (Hs & _).
  pose proof (award_fields (xp_award a) (apply_effect e a (validated_state e a p)))
    as (Ha & _).
  cbv zeta in *. lia.
Qed.

Lemma validated_coins_nonneg (e : Env) (a : Action) (p : Pet) :
  0 <= coins p -> 0 <= randint e -> 0 <= coins (validated_state e a p).
Proof.
  intros Hc Hr. pose proof (refresh_coins e p) as H.
  destruct (_ && _) in H; destruct a; cbn [validated_state]; lia.
Qed.

Lemma perform_coins_nonneg (local_date : Q -> string) (e : Env) (a : Action) (p : Pet) :
  0 <= coins p -> 0 <= randint e -> 0 <= coins (exec (perform local_date e a) p).
Proof.
  intros Hc Hr. pose proof (validated_coins_nonneg e a p Hc Hr) as Hq.
  rewrite perform_exec. cbv zeta.
  destruct (precondition_fails _ _ _ _) eqn:Hf; [exact Hq|].
  pose proof (effect_coins local_date e a _ Hf) as (Hd & Hpos).
  pose proof (award_fields (xp_award a) (apply_effect e a (validated_state e a p)))
    as (Hl & Ha & _).
  cbv zeta in *. specialize (Hpos Hq). lia.
Qed.

(** ** Progression and economy *)

(** X1.  No action ever lowers a pet's level, whatever its arguments and
    whether it succeeds or not. *)
Theorem level_never_decreases
    (local_date : Q -> string) (e : Env) (a : Action) (p : Pet) :
  level p <= level (exec (perform local_date e a) p).
Proof. apply perform_level_le. Qed.

(** X2.  Evolution is permanent: no action clears [evolved]. *)
Theorem evolved_is_permanent
    (local_date : Q -> string) (e : Env) (a : Action) (p : Pet) :
  evolved p = true -> evolved (exec (perform local_date e a) p) = true.
Proof.
  intros Hev. rewrite perform_exec. cbv zeta.
  pose proof (validated_frame e a p) as (_ & _ & Hq & _). cbv zeta in Hq.
  destruct (precondition_fails _ _ _ _); [congruence|].
  pose proof (effect_frame e a (validated_state e a p)) as (_ & _ & Hs & _).
  pose proof (award_fields (xp_award a) (apply_effect e a (validated_state e a p)))
    as (_ & _ & Ha & _).
  cbv zeta in *. apply Ha. congruence.
Qed.

Lemma evolved_is_permanent_witness :
  evolved (exec (perform day_date ten_hours_later (APlay 30)) big_tom) = true.
Proof.
  apply (evolved_is_permanent day_date ten_hours_later (APlay 30) big_tom).
  reflexivity.
Defined.

(** X3.  The balance never goes below zero: from a pet with [coins >= 0],
    and a gift draw that is not negative, every action leaves
    [coins >= 0]. *)
Theorem coins_never_negative
    (local_date : Q -> string) (e : Env) (a : Action) (p : Pet) :
  0 <= coins p -> 0 <= randint e ->
  0 <= coins (exec (perform local_date e a) p).
Proof. apply perform_coins_nonneg. Qed.

Lemma coins_never_negative_witness :
  0 <= coins (exec (perform day_date one_hour_later_lucky (ABuy "toy")) broke_tom).
Proof.
  apply (coins_never_negative day_date one_hour_later_lucky (ABuy "toy") broke_tom).
  - vm_compute. discriminate.
  - vm_compute. discriminate.
Defined.

(** X4.  Every coin is accounted for.  For durations up to [2^31] in
    magnitude, the balance after an action is the balance of the validated
    state, plus the action's own payment or charge when the action reported
    success (feed -5, play and rest +1, work one coin per five whole
    minutes, the item's price, the daily reward +20; nothing when it
    reported failure), plus 20 for each level gained. *)
Theorem coins_ledger
    (local_date : Q -> string) (e : Env) (a : Action) (p : Pet) :
  minutes_bounded a ->
  let q := validated_state e a p in
  let p' := exec (perform local_date e a) p in
  coins p' =
    coins q + (if fst (eval (perform local_date e a) p) then coin_delta a else 0)
    + 20 * (level p' - level q).
Proof.
  intros _. cbv zeta. rewrite perform_ok, perform_exec. cbv zeta.
  destruct (precondition_fails _ _ _ _) eqn:Hf; cbn [negb]; [lia|].
  pose proof (effect_frame e a (validated_state e a p)) as (Hs & _).
  pose proof (effect_coins local_date e a _ Hf) as (Hc & _).
  pose proof (award_fields (xp_award a) (apply_effect e a (validated_state e a p)))
    as (_ & Ha & _).
  cbv zeta in *. lia.
Qed.

Lemma coins_ledger_witness :
  coins (exec (perform day_date at_time_zero (AJob 100)) tom_xp95) =
    coins (validated_state at_time_zero (AJob 100) tom_xp95)
    + (if fst (eval (perform day_date at_time_zero (AJob 100)) tom_xp95)
       then coin_delta (AJob 100) else 0)
    + 20 * (level (exec (perform day_date at_time_zero (AJob 100)) tom_xp95)
            - level (validated_state at_time_zero (AJob 100) tom_xp95)).
Proof.
  apply (coins_ledger day_date at_time_zero (AJob 100) tom_xp95).
  vm_compute. discriminate.
Defined.

(** X5.  For the actions whose test the interpreter decides exactly
    ([feed], [play], [rest], [buy_item], [daily_reward], with durations up
    to [2^31] in magnitude), the action reports success exactly when none
    of its preconditions fails on the state it validates: 5 coins for
    [feed]; energy of half a point per minute for [play]; nothing for
    [rest]; a known key, the price and, for the toy, 5 energy for
    [buy_item]; no claim on the same local date for [daily_reward]. *)
Theorem success_iff_precondition
    (local_date : Q -> string) (e : Env) (a : Action) (p : Pet) :
  exactly_guarded a ->
  fst (eval (perform local_date e a) p) =
    negb (precondition_fails local_date e a (validated_state e a p)).
Proof. intros _. apply perform_ok. Qed.

Lemma success_iff_precondition_witness :
  fst (eval (perform day_date ten_hours_later (APlay 60)) tired_tom) =
    negb (precondition_fails day_date ten_hours_later (APlay 60)
            (validated_state ten_hours_later (APlay 60) tired_tom)).
Proof.
  apply (success_iff_precondition day_date ten_hours_later (APlay 60) tired_tom).
  vm_compute. discriminate.
Defined.

(** X6.  [_gain_xp] conserves experience: counting 100 points per level,
    the total grows by exactly the amount gained, and the coins grow by 20
    per level gained. *)
Theorem gain_xp_conserves_experience (amount : Z) (p : Pet) :
  let p' := exec (_gain_xp amount) p in
  100 * level p' + xp p' = 100 * level p + xp p + amount /\
  coins p' = coins p + 20 * (level p' - level p).
Proof.
  cbv zeta. unfold exec. rewrite gain_xp_closed_form. cbn. lia.
Qed.

Lemma level_ups_div (y : Z) : 0 <= y -> level_ups y = y / 100.
Proof.
  intros H. unfold level_ups. destruct (Z.leb_spec 100 y); [reflexivity|].
  symmetry. apply Z.div_small. lia.
Qed.

Lemma level_ups_split (y b : Z) :
  0 <= y -> 0 <= b ->
  level_ups (y + b) = level_ups y + level_ups (y - 100 * level_ups y + b).
Proof.
  intros Hy Hb.
  pose proof (Z.div_mod y 100 ltac:(lia)) as Hdm.
  pose proof (Z.mod_pos_bound y 100 ltac:(lia)) as Hm.
  rewrite !level_ups_div by (rewrite ?level_ups_div by lia; lia).
  replace (y - 100 * (y / 100) + b) with (y mod 100 + b) by lia.
  replace (y + b) with ((y mod 100 + b) + (y / 100) * 100) at 1 by lia.
  rewrite Z.div_add by lia. lia.
Qed.

Lemma gain_xp_twice (a b : Z) (p : Pet) :
  0 <= xp p -> 0 <= a -> 0 <= b ->
  exec (_gain_xp b) (exec (_gain_xp a) p) = exec (_gain_xp (a + b)) p.
Proof.
  intros Hx Ha Hb. unfold exec. rewrite !gain_xp_closed_form.
  destruct p as [nm sp h hp en mx lv x c lu ea evo evd ldc lgt lga].
  cbn in *.
  pose proof (level_ups_split (x + a) b ltac:(lia) Hb) as Hk.
  pose proof (level_ups_nonneg (x + a)) as Hk1.
  pose proof (level_ups_nonneg (x + a - 100 * level_ups (x + a) + b)) as Hk2.
  replace (x + (a + b)) with (x + a + b) by lia.
  set (k1 := level_ups (x + a)) in *.
  set (k2 := level_ups (x + a - 100 * k1 + b)) in *.
  rewrite Hk.
  cbv beta iota delta
    [set_evolved set_coins set_level set_xp name species hunger happiness energy
     max_energy level xp coins last_updated evolve_at evolution evolved
     last_daily_claim last_gift_time last_gift_amount].
  f_equal; try lia.
  destruct evd; cbn; [reflexivity|].
  destruct (Z.ltb_spec 0 k1), (Z.ltb_spec 0 k2), (Z.ltb_spec 0 (k1 + k2)),
    (Z.leb_spec ea (lv + k1)), (Z.leb_spec ea (lv + k1 + k2)),
    (Z.leb_spec ea (lv + (k1 + k2))); cbn; try reflexivity; lia.
Qed.

(** X7.  Gains add up: for a pet with [xp >= 0], gaining [a] and then [b]
    (both not negative) leaves the pet exactly as gaining [a + b] at once,
    so levels are awarded once per 100 points crossed however the points
    arrive. *)
Theorem gain_xp_composes (a b : Z) (p : Pet) :
  0 <= xp p -> 0 <= a -> 0 <= b ->
  exec (_gain_xp a ;; _gain_xp b) p = exec (_gain_xp (a + b)) p.
Proof.
  intros Hx Ha Hb. rewrite exec_bind. apply gain_xp_twice; assumption.
Qed.

Lemma gain_xp_composes_witness :
  exec (_gain_xp 60 ;; _gain_xp 70) tom = exec (_gain_xp 130) tom.
Proof.
  apply (gain_xp_composes 60 70 tom); vm_compute; discriminate.
Defined.

(** ** The time-decay routine, again *)

(** X8.  Refreshing twice at the same instant is refreshing once: the
    second call finds no elapsed time, applies no decay and rolls no
    gift. *)
Theorem refresh_is_idempotent (e : Env) (p : Pet) :
  exec (refresh e ;; refresh e) p = exec (refresh e) p.
Proof.
  rewrite exec_bind. unfold exec at 1. rewrite refresh_idem. reflexivity.
Qed.

(** X9.  The refresh never touches a pet's identity or progression:
    name, species, [max_energy], level, xp, the evolution threshold, name
    and flag, and the daily-claim timestamp are what they were. *)
Theorem refresh_leaves_progression (e : Env) (p : Pet) :
  let q := exec (refresh e) p in
  name q = name p /\ species q = species p /\ max_energy q = max_energy p /\
  level q = level p /\ xp q = xp p /\ evolve_at q = evolve_at p /\
  evolution q = evolution p /\ evolved q = evolved p /\
  last_daily_claim q = last_daily_claim p.
Proof. apply refresh_frame. Qed.

(** X10.  On a pet within its ranges the refresh only ever moves
    attributes one way: hunger and energy do not fall, happiness does not
    rise, and [last_updated] does not go back (a clock that went backwards
    changes nothing). *)
Theorem refresh_moves_one_way (e : Env) (p : Pet) :
  in_range p ->
  let q := exec (refresh e) p in
  (hunger p <= hunger q)%Q /\ (energy p <= energy q)%Q /\
  (happiness q <= happiness p)%Q /\ (last_updated p <= last_updated q)%Q.
Proof.
  intros (Hh0 & Hh1 & Hp0 & Hp1 & He0 & He1). cbv zeta.
  destruct (Qltb 0 (now e - last_updated p)) eqn:El.
  - rewrite refresh_elapsed by assumption. apply Qltb_lt in El.
    unfold _maybe_random_gift, _apply_time_decay.
    set (hours := ((now e - last_updated p) / 3600)%Q).
    destruct (Qle_bool hours 0) eqn:Hours.
    { destruct (Qltb (rand e) RANDOM_GIFT_CHANCE); run;
        split_and!; try apply Qle_refl; lra. }
    assert (Hpos : (0 < hours)%Q).
    { apply Qnot_le_lt. intros Hle. apply Qle_bool_iff in Hle. congruence. }
    assert (Hhu : (hunger p <= py_min 100 (hunger p + HUNGER_INCREASE_PER_HOUR * hours))%Q).
    { apply py_min_glb; [assumption|]. unfold HUNGER_INCREASE_PER_HOUR. lra. }
    assert (Hen : (energy p <= py_max 0 (py_min (max_energy p)
                                  (energy p + ENERGY_RECOVER_PER_HOUR * hours)))%Q).
    { eapply Qle_trans; [|apply py_max_ge_r]. apply py_min_glb; [assumption|].
      unfold ENERGY_RECOVER_PER_HOUR. lra. }
    assert (Hha : (py_max 0 (happiness p - HAPPINESS_DECAY_PER_HOUR * hours)
                   <= happiness p)%Q).
    { apply py_max_lub; [assumption|]. unfold HAPPINESS_DECAY_PER_HOUR. lra. }
    destruct (Qltb (rand e) RANDOM_GIFT_CHANCE); run; destruct (_ || _); run;
      split_and!; try assumption; try apply Qle_refl; lra.
  - unfold exec. rewrite refresh_no_elapsed by assumption.
    split_and!; apply Qle_refl.
Qed.

Lemma in_range_tom : in_range tom.
Proof. vm_compute. split_and!; discriminate. Qed.

Lemma refresh_moves_one_way_witness :
  (hunger tom <= hunger (exec (refresh ten_hours_later) tom))%Q /\
  (energy tom <= energy (exec (refresh ten_hours_later) tom))%Q /\
  (happiness (exec (refresh ten_hours_later) tom) <= happiness tom)%Q /\
  (last_updated tom <= last_updated (exec (refresh ten_hours_later) tom))%Q.
Proof.
  apply (refresh_moves_one_way ten_hours_later tom). exact in_range_tom.
Defined.

(** ** Invariants under well-meant calls *)

(** X11.  With durations that are not negative, every action (successful
    or not, at any time, with any gift draw) keeps hunger and happiness in
    [0, 100] and energy in [0, max_energy]. *)
Theorem ranges_kept_for_nonnegative_minutes
    (local_date : Q -> string) (e : Env) (a : Action) (p : Pet) :
  minutes_nonneg a -> in_range p -> in_range (exec (perform local_date e a) p).
Proof. apply in_range_preserved. Qed.

Lemma ranges_kept_for_nonnegative_minutes_witness :
  in_range (exec (perform day_date ten_hours_later (APlay 200)) tom).
Proof.
  apply (ranges_kept_for_nonnegative_minutes day_date ten_hours_later (APlay 200) tom).
  - vm_compute. discriminate.
  - exact in_range_tom.
Defined.

(** X12.  With durations that are not negative, every action keeps
    [0 <= xp < 100]. *)
Theorem xp_kept_for_nonnegative_minutes
    (local_date : Q -> string) (e : Env) (a : Action) (p : Pet) :
  minutes_nonneg a -> xp_normal p -> xp_normal (exec (perform local_date e a) p).
Proof. apply xp_normal_preserved. Qed.

Lemma xp_kept_for_nonnegative_minutes_witness :
  xp_normal (exec (perform day_date ten_hours_later (APlay 200)) tom_xp95).
Proof.
  apply (xp_kept_for_nonnegative_minutes day_date ten_hours_later (APlay 200) tom_xp95).
  - vm_compute. discriminate.
  - vm_compute. split; [discriminate|reflexivity].
Defined.

Lemma perform_well_formed (local_date : Q -> string) (e : Env) (a : Action) (p : Pet) :
  minutes_nonneg a -> 0 <= randint e -> well_formed p ->
  well_formed (exec (perform local_date e a) p).
Proof.
  intros Hm Hr (Hrange & Hxp & Hc & Hl). split_and!.
  - apply in_range_preserved; assumption.
  - apply xp_normal_preserved; assumption.
  - apply perform_coins_nonneg; assumption.
  - pose proof (perform_level_le local_date e a p). lia.
Qed.

(** X13.  A whole session of actions, each at its own instant, keeps a
    well-formed pet well formed (ranges, [0 <= xp < 100], [coins >= 0],
    [level >= 1]), provided no duration is negative and no gift draw is
    negative. *)
Theorem session_keeps_well_formed
    (local_date : Q -> string) (calls : list (Env * Action)) (p : Pet) :
  Forall (fun c => minutes_nonneg (snd c) /\ 0 <= randint (fst c)) calls ->
  well_formed p -> well_formed (run_session local_date calls p).
Proof.
  intros Hcalls. revert p.
  induction Hcalls as [|[e a] calls [Hm Hr] _ IH]; intros p Hp; cbn [run_session].
  - exact Hp.
  - apply IH, perform_well_formed; assumption.
Qed.

Lemma session_keeps_well_formed_witness :
  well_formed
    (run_session day_date
       [(one_hour_later_lucky, APlay 30); (ten_hours_later, AJob 100);
        (ten_hours_later, ABuy "toy"); (ten_hours_later, ADaily)] tom).
Proof.
  apply (session_keeps_well_formed day_date
           [(one_hour_later_lucky, APlay 30); (ten_hours_later, AJob 100);
            (ten_hours_later, ABuy "toy"); (ten_hours_later, ADaily)] tom).
  - repeat constructor; vm_compute; discriminate.
  - split_and!; [exact in_range_tom| |vm_compute; discriminate|vm_compute; discriminate].
    vm_compute. split; [discriminate|reflexivity].
Defined.

(** X15.  Feeding from an item already paid for never fails and charges
    nothing, whatever the balance, for a food strength the interpreter
    converts exactly (up to [2^53] in magnitude): the balance changes only
    by the refresh's gift and by level-up bonuses. *)
Theorem prepaid_feed_never_fails (e : Env) (food_strength : Z) (p : Pet) :
  Z.abs food_strength <= 2 ^ 53 ->
  let q := exec (refresh e) p in
  let p' := exec (feed e true food_strength) p in
  fst (eval (feed e true food_strength) p) = true /\
  coins p' = coins q + 20 * (level p' - level q).
Proof.
  intros _. cbv zeta. split.
  - unfold feed. run. run. reflexivity.
  - rewrite feed_exec. cbv zeta. cbn [negb andb].
    generalize (exec (refresh e) p). intros q.
    pose proof (award_fields (Some 10) (feed_effect true food_strength q))
      as (_ & Hc & _).
    cbv zeta in Hc. cbn [award] in Hc. rewrite Hc. reflexivity.
Qed.

Lemma prepaid_feed_never_fails_witness :
  fst (eval (feed ten_hours_later true 20) broke_tom) = true /\
  coins (exec (feed ten_hours_later true 20) broke_tom) =
    coins (exec (refresh ten_hours_later) broke_tom)
    + 20 * (level (exec (feed ten_hours_later true 20) broke_tom)
            - level (exec (refresh ten_hours_later) broke_tom)).
Proof.
  apply (prepaid_feed_never_fails ten_hours_later 20 broke_tom).
  vm_compute. discriminate.
Defined.

(** ** Creation *)

Lemma template_cases (s : string) (tpl : Template) :
  TEMPLATES !! s = Some tpl ->
  tpl = mkTemplate 100 30 60 5 "Big Cat" \/
  tpl = mkTemplate 120 35 55 6 "Wolfhound" \/
  tpl = mkTemplate 200 20 65 4 "Elder Dragon".
Proof.
  unfold TEMPLATES. intros H.
  apply lookup_insert_Some in H as [[_ <-]|[_ H]]; [tauto|].
  apply lookup_insert_Some in H as [[_ <-]|[_ H]]; [tauto|].
  apply lookup_insert_Some in H as [[_ <-]|[_ H]]; [tauto|].
  rewrite lookup_empty in H. discriminate.
Qed.

(** X16.  Whatever the name and the species string, the factory's pet is
    well formed: attributes within their ranges, energy at its maximum,
    level 1, no experience, 50 coins, not evolved, never claimed, and an
    evolution threshold above its level. *)
Theorem created_pet_is_well_formed (lower : string -> string) (t : Q) (n kind : string) :
  let p := PetFactory.create_pet lower t n kind in
  well_formed p /\ energy p = max_energy p /\ level p = 1 /\ xp p = 0 /\
  coins p = 50 /\ evolved p = false /\ last_daily_claim p = 0%Q /\
  level p < evolve_at p /\ last_updated p = t.
Proof.
  cbv zeta. destruct (TEMPLATES !! lower kind) as [tpl|] eqn:Ht.
  - rewrite (factory_known_species lower t n kind tpl Ht).
    destruct (template_cases _ _ Ht) as [-> | [-> | ->]];
      unfold well_formed, in_range, xp_normal; split_and!;
      first [reflexivity | vm_compute; discriminate | vm_compute; reflexivity].
  - rewrite (factory_unknown_species lower t n kind Ht).
    unfold well_formed, in_range, xp_normal; split_and!;
      first [reflexivity | vm_compute; discriminate | vm_compute; reflexivity].
Qed.

(** ** The registry *)

Lemma create_pet_ok (strip lower : string -> string) (t : Q) (raw_name kind : string)
    (pets : gmap string PetObj) :
  fst (fst (PetWorld.create_pet strip lower t raw_name kind pets)) = true ->
  strip raw_name <> "" /\ pets !! strip raw_name = None /\
  snd (PetWorld.create_pet strip lower t raw_name kind pets) =
    <[strip raw_name := obj_of_pet (PetFactory.create_pet lower t (strip raw_name) kind)]> pets.
Proof.
  unfold PetWorld.create_pet.
  destruct (String.eqb_spec (strip raw_name) "") as [Hn|Hn]; cbn [fst snd];
    [discriminate|].
  case_bool_decide as Hdup; cbn [fst snd]; [discriminate|].
  intros _. split_and!; try reflexivity; try assumption.
  destruct (pets !! strip raw_name) eqn:Hl; [|reflexivity].
  exfalso. apply Hdup. eauto.
Qed.

(** X17.  After a successful creation the pet is found under its stripped
    name, every other entry of the registry is as before, the registry has
    one pet more, and creating again under a name that strips to the same
    is refused as a duplicate without changing anything. *)
Theorem create_then_get (strip lower : string -> string)
    (t t2 : Q) (raw_name raw_name2 kind kind2 other : string)
    (pets : gmap string PetObj) :
  fst (fst (PetWorld.create_pet strip lower t raw_name kind pets)) = true ->
  strip raw_name2 = strip raw_name ->
  other <> strip raw_name ->
  let pets' := snd (PetWorld.create_pet strip lower t raw_name kind pets) in
  PetWorld.get_pet (strip raw_name) pets' =
    Some (obj_of_pet (PetFactory.create_pet lower t (strip raw_name) kind)) /\
  PetWorld.get_pet other pets' = PetWorld.get_pet other pets /\
  size pets' = S (size pets) /\
  PetWorld.create_pet strip lower t2 raw_name2 kind2 pets' = ((false, PetExists), pets').
Proof.
  intros Hok Hsame Hother. cbv zeta.
  destruct (create_pet_ok strip lower t raw_name kind pets Hok) as (Hn & Hfresh & ->).
  unfold PetWorld.get_pet. split_and!.
  - apply lookup_insert_eq.
  - apply lookup_insert_ne. congruence.
  - apply map_size_insert_None, Hfresh.
  - unfold PetWorld.create_pet. rewrite Hsame.
    destruct (String.eqb_spec (strip raw_name) ""); [contradiction|].
    rewrite bool_decide_eq_true_2; [reflexivity|].
    rewrite lookup_insert_eq. eauto.
Qed.

Lemma create_then_get_witness :
  let pets' := snd (PetWorld.create_pet ascii_strip ascii_lower 0 " Rex " "dog" ∅) in
  PetWorld.get_pet "Rex" pets' = Some (obj_of_pet (PetFactory.create_pet ascii_lower 0 "Rex" "dog")) /\
  PetWorld.create_pet ascii_strip ascii_lower 7 "Rex" "cat" pets' = ((false, PetExists), pets').
Proof.
  cbv zeta.
  destruct (create_then_get ascii_strip ascii_lower 0 7 " Rex " "Rex" "dog" "cat" "Tom" ∅)
    as (Hget & _ & _ & Hdup); try reflexivity; try discriminate.
  split; [exact Hget|exact Hdup].
Defined.

(** X18.  Deletion reports whether the name was registered; afterwards the
    name is gone, every other entry is as before, and a second deletion
    reports that nothing was removed. *)
Theorem delete_pet_removes (n other : string) (pets : gmap string PetObj) :
  let r := PetWorld.delete_pet n pets in
  (fst r = true <-> is_Some (pets !! n)) /\
  PetWorld.get_pet n (snd r) = None /\
  (other <> n -> PetWorld.get_pet other (snd r) = PetWorld.get_pet other pets) /\
  PetWorld.delete_pet n (snd r) = (false, snd r).
Proof.
  cbv zeta. unfold PetWorld.delete_pet, PetWorld.get_pet.
  case_bool_decide as Hin; cbn [fst snd].
  - split_and!.
    + tauto.
    + apply lookup_delete_eq.
    + intros Hne. apply lookup_delete_ne. congruence.
    + rewrite bool_decide_eq_false_2; [reflexivity|].
      rewrite lookup_delete_eq. intros [x Hx]. discriminate.
  - split_and!.
    + split; [discriminate|contradiction].
    + destruct (pets !! n) eqn:Hl; [|reflexivity]. exfalso. apply Hin. eauto.
    + reflexivity.
    + rewrite bool_decide_eq_false_2 by assumption. reflexivity.
Qed.

Lemma delete_pet_removes_witness :
  PetWorld.get_pet "Tom"
    (snd (PetWorld.delete_pet "Rex" (<["Tom" := obj_of_pet tom]> ∅))) =
  PetWorld.get_pet "Tom" (<["Tom" := obj_of_pet tom]> ∅).
Proof.
  destruct (delete_pet_removes "Rex" "Tom" (<["Tom" := obj_of_pet tom]> ∅))
    as (_ & _ & Hother & _).
  apply Hother. discriminate.
Defined.

(** X19.  Creating a pet and deleting it again gives back the registry as
    it was. *)
Theorem create_then_delete (strip lower : string -> string)
    (t : Q) (raw_name kind : string) (pets : gmap string PetObj) :
  fst (fst (PetWorld.create_pet strip lower t raw_name kind pets)) = true ->
  PetWorld.delete_pet (strip raw_name)
    (snd (PetWorld.create_pet strip lower t raw_name kind pets)) = (true, pets).
Proof.
  intros Hok.
  destruct (create_pet_ok strip lower t raw_name kind pets Hok) as (Hn & Hfresh & ->).
  unfold PetWorld.delete_pet.
  rewrite bool_decide_eq_true_2 by (rewrite lookup_insert_eq; eauto).
  rewrite delete_insert_eq. f_equal. apply delete_id, Hfresh.
Qed.

Lemma create_then_delete_witness :
  PetWorld.delete_pet "Rex" (snd (PetWorld.create_pet ascii_strip ascii_lower 0 " Rex " "dog" ∅)) = (true, ∅).
Proof.
  apply (create_then_delete ascii_strip ascii_lower 0 " Rex " "dog" ∅). reflexivity.
Defined.

(** ** Loading into a registry that already holds pets *)

(** X20.  [load] merges: a name of the document gets the pet read from
    its entry, replacing any pet registered under it, and every other name
    keeps the pet it had; the message counts the whole registry. *)
Theorem load_merges (parse_float : string -> option Q) (int_float : Z -> option Q) (t : Q)
    (raw : gmap string (gmap string value)) (pets : gmap string PetObj) (k : string) :
  let r := PetWorld.load parse_float int_float t (Some raw) pets in
  snd r !! k =
    match raw !! k with
    | Some pdata => Some (PetWorld.load_entry parse_float int_float t pdata)
    | None => pets !! k
    end /\
  fst r = (true, Loaded (size (snd r))).
Proof.
  cbv zeta. split; [apply load_lookup|reflexivity].
Qed.

(** X21.  Loading the same document twice at the same instant is loading
    it once. *)
Theorem load_is_idempotent (parse_float : string -> option Q) (int_float : Z -> option Q) (t : Q)
    (raw : gmap string (gmap string value)) (pets : gmap string PetObj) :
  PetWorld.load parse_float int_float t (Some raw)
    (snd (PetWorld.load parse_float int_float t (Some raw) pets)) =
  PetWorld.load parse_float int_float t (Some raw) pets.
Proof.
  assert (H : snd (PetWorld.load parse_float int_float t (Some raw)
                     (snd (PetWorld.load parse_float int_float t (Some raw) pets))) =
              snd (PetWorld.load parse_float int_float t (Some raw) pets)).
  { apply map_eq. intros k. rewrite !load_lookup.
    destruct (raw !! k); reflexivity. }
  assert (Heta : forall w, PetWorld.load parse_float int_float t (Some raw) w =
                   ((true, Loaded (size (snd (PetWorld.load parse_float int_float t (Some raw) w)))),
                    snd (PetWorld.load parse_float int_float t (Some raw) w)))
    by reflexivity.
  rewrite Heta, H. symmetry. apply Heta.
Qed.

(** ** The codec of one pet *)

Lemma to_dict_lookup (o : PetObj) (k : string) : to_dict o !! k = getattr o k.
Proof.
  unfold to_dict, getattr.
  repeat match goal with
         | |- context [String.eqb k ?s] =>
             destruct (String.eqb_spec k s) as [->|?];
             [rewrite ?lookup_insert_ne by discriminate; apply lookup_insert_eq|]
         end.
  rewrite !lookup_insert_ne by congruence. apply lookup_empty.
Qed.

(** X22.  [to_dict] writes exactly the sixteen attributes, each under its
    own name and nothing else, and [from_dict] reads the instance back
    whatever the time of reading: no default is used. *)
Theorem to_dict_from_dict (t : Q) (o : PetObj) (k : string) :
  to_dict o !! k = getattr o k /\
  (k ∉ FIELDS -> to_dict o !! k = None) /\
  from_dict t (to_dict o) = o.
Proof.
  split_and!.
  - apply to_dict_lookup.
  - intros Hk. rewrite to_dict_lookup. unfold getattr.
    repeat match goal with
           | |- context [String.eqb k ?s] =>
               destruct (String.eqb_spec k s) as [->|?];
               [exfalso; apply Hk; unfold FIELDS; repeat constructor|]
           end.
    reflexivity.
  - apply from_dict_to_dict.
Qed.

Lemma to_dict_from_dict_witness :
  to_dict (obj_of_pet tom) !! "nickname" = None.
Proof.
  destruct (to_dict_from_dict 0 (obj_of_pet tom) "nickname") as (_ & Hnone & _).
  apply Hnone. unfold FIELDS. intros H.
  repeat (apply elem_of_cons in H as [H|H]; [discriminate|]).
  apply elem_of_nil in H. exact H.
Defined.

(** ** The status snapshot *)

Lemma status_exec (ctime : Q -> string) (round1 : Q -> Q) (e : Env) (p : Pet) :
  exec (status ctime round1 e) p = exec (refresh e) p.
Proof. unfold status. rewrite exec_bind. reflexivity. Qed.

(** X23.  Asking for the status changes the pet exactly as a refresh
    does, and asking again at the same instant returns the same snapshot
    and changes nothing more. *)
Theorem status_is_stable (ctime : Q -> string) (round1 : Q -> Q) (e : Env) (p : Pet) :
  exec (status ctime round1 e) p = exec (refresh e) p /\
  status ctime round1 e (exec (status ctime round1 e) p) = status ctime round1 e p.
Proof.
  split; [apply status_exec|].
  rewrite status_exec. symmetry. unfold status. apply refresh_then.
Qed.

(** X24.  When the refresh run by [status] draws a gift (time has elapsed,
    the draw is under the gift chance, and the clock is not at the epoch),
    the snapshot carries the gift message with the amount drawn and shows
    the balance with the gift added. *)
Theorem status_reports_fresh_gift (ctime : Q -> string) (round1 : Q -> Q) (e : Env) (p : Pet) :
  (last_updated p < now e)%Q ->
  (rand e < RANDOM_GIFT_CHANCE)%Q ->
  ~ (now e == 0)%Q ->
  st_gift_message (eval (status ctime round1 e) p) = Some (FoundCoins (randint e)) /\
  st_coins (eval (status ctime round1 e) p) = coins p + randint e.
Proof.
  intros Hel Hrand Hnow.
  assert (El : Qltb 0 (now e - last_updated p) = true) by (apply Qltb_lt; lra).
  apply Qltb_lt in Hrand.
  assert (Ht : truthy (now e) = true).
  { unfold truthy. apply negb_true_iff, not_true_iff_false. intros H.
    apply Hnow, Qeq_bool_iff, H. }
  assert (H5 : Qltb (now e - now e) 5 = true) by (apply Qltb_lt; lra).
  unfold status. rewrite eval_bind.
  pose proof (refresh_coins e p) as Hc. rewrite El, Hrand in Hc. cbn [andb] in Hc.
  assert (Hg : last_gift_time (exec (refresh e) p) = now e /\
               last_gift_amount (exec (refresh e) p) = randint e).
  { rewrite refresh_elapsed by assumption.
    unfold _maybe_random_gift. rewrite Hrand. run. split; reflexivity. }
  destruct Hg as [Hgt Hga].
  unfold eval. cbn [fst st_gift_message st_coins].
  rewrite Hgt, Hga, Ht, H5, Hc. split; reflexivity.
Qed.

Lemma status_reports_fresh_gift_witness :
  st_gift_message (eval (status day_date Qred one_hour_later_lucky) tom) =
    Some (FoundCoins 3) /\
  st_coins (eval (status day_date Qred one_hour_later_lucky) tom) = 53.
Proof.
  apply (status_reports_fresh_gift day_date Qred one_hour_later_lucky tom).
  - vm_compute. reflexivity.
  - vm_compute. reflexivity.
  - vm_compute. discriminate.
Defined.

(** ** More on decay and on the direction of effects *)

(** X25.  Time lowers happiness only for a neglected pet: when the
    refreshed pet has [hunger <= 70] and [energy >= 20], its happiness is
    what it was before the refresh. *)
Theorem happiness_decays_only_when_neglected (e : Env) (p : Pet) :
  let q := exec (refresh e) p in
  (hunger q <= 70)%Q -> (20 <= energy q)%Q -> happiness q = happiness p.
Proof.
  cbv zeta. destruct (Qltb 0 (now e - last_updated p)) eqn:El.
  - rewrite refresh_elapsed by assumption.
    unfold _maybe_random_gift, _apply_time_decay.
    set (hours := ((now e - last_updated p) / 3600)%Q).
    destruct (Qle_bool hours 0).
    { destruct (Qltb (rand e) RANDOM_GIFT_CHANCE); run; reflexivity. }
    destruct (Qltb (rand e) RANDOM_GIFT_CHANCE); run;
      (destruct (Qltb 70 _) eqn:Hh; cbn [orb];
       [run; intros Hle _; apply Qltb_lt in Hh; exfalso; lra|]);
      (destruct (Qltb _ 20) eqn:He;
       [run; intros _ Hle; apply Qltb_lt in He; exfalso; lra|]);
      run; reflexivity.
  - unfold exec. rewrite refresh_no_elapsed by assumption. reflexivity.
Qed.

Lemma happiness_decays_only_when_neglected_witness :
  happiness (exec (refresh ten_hours_later) tom) = happiness tom.
Proof.
  apply (happiness_decays_only_when_neglected ten_hours_later tom).
  - vm_compute. discriminate.
  - vm_compute. discriminate.
Defined.

(** X26.  The refresh changes the balance only by a gift: it adds the
    amount drawn when time has elapsed and the draw is under the gift
    chance, and nothing otherwise. *)
Theorem refresh_pays_only_gifts (e : Env) (p : Pet) :
  coins (exec (refresh e) p) =
    coins p + (if Qltb 0 (now e - last_updated p) && Qltb (rand e) RANDOM_GIFT_CHANCE
               then randint e else 0).
Proof. apply refresh_coins. Qed.

(** X27.  Only time makes a pet hungrier or sadder: on a pet within its
    ranges, and with durations that are not negative, an action itself
    (the refresh it starts with apart) never raises hunger and never
    lowers happiness. *)
Theorem actions_only_help (local_date : Q -> string) (e : Env) (a : Action) (p : Pet) :
  minutes_nonneg a -> in_range p ->
  let q := validated_state e a p in
  let p' := exec (perform local_date e a) p in
  (hunger p' <= hunger q)%Q /\ (happiness q <= happiness p')%Q.
Proof.
  intros Hm Hp. cbv zeta. rewrite perform_exec. cbv zeta.
  assert (Hq : in_range (validated_state e a p)).
  { destruct a; cbn [validated_state]; try assumption; apply refresh_in_range, Hp. }
  generalize dependent (validated_state e a p).
  intros q (Hh0 & Hh1 & Hp0 & Hp1 & He0 & He1).
  destruct (precondition_fails local_date e a q); [split; apply Qle_refl|].
  pose proof (award_fields (xp_award a) (apply_effect e a q))
    as (_ & _ & _ & -> & -> & _).
  assert (Hup : forall x, (0 <= x)%Q -> (happiness q <= py_min 100 (happiness q + x))%Q).
  { intros x Hx. apply py_min_glb; [assumption|lra]. }
  assert (Hdown : forall x, (0 <= x)%Q -> (py_max 0 (hunger q - x) <= hunger q)%Q).
  { intros x Hx. apply py_max_lub; [assumption|lra]. }
  destruct a as [|m|m|m|k|]; cbn [apply_effect minutes_nonneg] in *; unfold feed_effect.
  - cbn [hunger happiness set_happiness set_hunger set_coins].
    split; [apply Hdown|apply Hup]; unfold inject_Z; lra.
  - apply inject_Z_nonneg in Hm.
    cbn [hunger happiness set_happiness set_energy set_coins].
    split; [apply Qle_refl|apply Hup; lra].
  - apply inject_Z_nonneg in Hm.
    cbn [hunger happiness set_happiness set_energy set_coins].
    split; [apply Qle_refl|apply Hup; lra].
  - cbn [hunger happiness set_energy set_coins]. split; apply Qle_refl.
  - destruct (k =? "food")%string.
    { cbn [hunger happiness set_happiness set_hunger set_coins].
      split; [apply Hdown|apply Hup]; unfold inject_Z; lra. }
    destruct (k =? "toy")%string.
    { cbn [hunger happiness set_happiness set_energy set_coins].
      split; [apply Qle_refl|apply Hup; unfold inject_Z; lra]. }
    destruct (k =? "energy_drink")%string.
    { cbn [hunger happiness set_happiness set_energy set_coins].
      split; [apply Qle_refl|apply Hup; unfold inject_Z; lra]. }
    split; apply Qle_refl.
  - cbn [hunger happiness set_last_daily_claim set_coins]. split; apply Qle_refl.
Qed.

Lemma actions_only_help_witness :
  (hunger (exec (perform day_date ten_hours_later AFeed) tom)
   <= hunger (validated_state ten_hours_later AFeed tom))%Q /\
  (happiness (validated_state ten_hours_later AFeed tom)
   <= happiness (exec (perform day_date ten_hours_later AFeed) tom))%Q.
Proof.
  apply (actions_only_help day_date ten_hours_later AFeed tom).
  - exact I.
  - exact in_range_tom.
Defined.

(** ** Loading and renormalisation *)

(** What [PetWorld.load] leaves in [last_updated], by the kind of value the
    document has for it. *)
Lemma load_entry_last_updated
    (parse_float : string -> option Q) (int_float : Z -> option Q) (t : Q)
    (data : gmap string value) :
  o_last_updated (PetWorld.load_entry parse_float int_float t data) =
    VFloat
      match data !! "last_updated" with
      | Some (VFloat q) => q
      | Some (VInt z) =>
          if Z.abs z <=? 2 ^ 53 then inject_Z z else default t (int_float z)
      | Some (VBool b) => if b then 1 else 0
      | Some (VStr s) => default t (parse_float s)
      | Some VNone | Some (VList _) | Some (VDict _) | None => t
      end.
Proof.
  unfold PetWorld.load_entry, dict_get.
  destruct (data !! "last_updated") as [u|]; [|reflexivity].
  destruct u as [| | z | | s | |]; cbn [default id py_float]; try reflexivity.
  - destruct (Z.abs z <=? 2 ^ 53); [reflexivity|].
    destruct (int_float z); reflexivity.
  - destruct (parse_float s); reflexivity.
Qed.

(** [_gain_xp] leaves [xp] below 100 from any [xp] and any amount. *)
Lemma gain_xp_below_100 (amount : Z) (p : Pet) : xp (exec (_gain_xp amount) p) < 100.
Proof.
  unfold exec. rewrite gain_xp_closed_form. cbn.
  apply (level_ups_remainder (xp p + amount)).
Qed.

Lemma awarding_action_renormalises_xp
    (local_date : Q -> string) (e : Env) (a : Action) (p : Pet) :
  fst (eval (perform local_date e a) p) = true ->
  xp_award a <> None ->
  xp (exec (perform local_date e a) p) < 100.
Proof.
  rewrite perform_ok, perform_exec. cbv zeta.
  destruct (precondition_fails _ _ _ _); [discriminate|]. intros _ Ha.
  destruct (xp_award a) as [amount|]; [|congruence].
  apply gain_xp_below_100.
Qed.

Lemma refresh_clamps (e : Env) (p : Pet) :
  Qle_bool ((now e - last_updated p) / 3600) 0 = false ->
  let q := exec (refresh e) p in
  (hunger q <= 100)%Q /\ (0 <= energy q)%Q /\
  ((0 <= max_energy p)%Q -> (energy q <= max_energy p)%Q).
Proof.
  intros Hours. cbv zeta.
  assert (El : Qltb 0 (now e - last_updated p) = true).
  { apply Qltb_lt. apply Qnot_le_lt. intros Hle.
    assert (H : Qle_bool ((now e - last_updated p) / 3600) 0 = true).
    { apply Qle_bool_iff. apply Qle_shift_div_r; [reflexivity|lra]. }
    congruence. }
  rewrite refresh_elapsed by assumption.
  unfold _maybe_random_gift, _apply_time_decay. rewrite Hours.
  destruct (Qltb (rand e) RANDOM_GIFT_CHANCE); run;
    destruct (_ || _); run;
    (split_and!;
      [apply py_min_le_l | apply py_max_ge_l
      | intros Hmx; apply py_max_lub; [assumption|apply py_min_le_l]]).
Qed.

Lemma successful_action_clamps
    (local_date : Q -> string) (e : Env) (a : Action) (p : Pet) :
  fst (eval (perform local_date e a) p) = true ->
  let p' := exec (perform local_date e a) p in
  (writes_hunger a = true -> (0 <= hunger p')%Q) /\
  (writes_happiness a = true -> (happiness p' <= 100)%Q).
Proof.
  rewrite perform_ok, perform_exec. cbv zeta.
  generalize (validated_state e a p). intros q.
  destruct (precondition_fails local_date e a q) eqn:Hf; [discriminate|]. intros _.
  pose proof (award_fields (xp_award a) (apply_effect e a q))
    as (_ & _ & _ & -> & -> & _).
  destruct a as [|m|m|m|k|];
    cbn [apply_effect writes_hunger writes_happiness precondition_fails] in *;
    unfold feed_effect.
  - cbn [hunger happiness set_happiness set_hunger set_coins].
    split; intros _; [apply py_max_ge_l|apply py_min_le_l].
  - cbn [hunger happiness set_happiness set_energy set_coins].
    split; intros H; [discriminate|apply py_min_le_l].
  - cbn [hunger happiness set_happiness set_energy set_coins].
    split; intros H; [discriminate|apply py_min_le_l].
  - split; discriminate.
  - destruct (k =? "food")%string.
    { cbn [hunger happiness set_happiness set_hunger set_coins].
      split; intros _; [apply py_max_ge_l|apply py_min_le_l]. }
    destruct (k =? "toy")%string.
    { cbn [hunger happiness set_happiness set_energy set_coins].
      split; intros H; [discriminate|apply py_min_le_l]. }
    destruct (k =? "energy_drink")%string.
    { cbn [hunger happiness set_happiness set_energy set_coins].
      split; intros H; [discriminate|apply py_min_le_l]. }
    discriminate.
  - split; discriminate.
Qed.

Lemma charge_needs_coins (local_date : Q -> string) (e : Env) (a : Action) (q : Pet) :
  precondition_fails local_date e a q = false ->
  coins q < 0 -> 0 <= coin_delta a.
Proof.
  destruct a as [|m|m|m|k|]; cbn [precondition_fails coin_delta];
    unfold FEED_COST, PLAY_COIN_REWARD, REST_COIN_REWARD, DAILY_REWARD_COINS;
    intros Hf Hc; try (apply Z.ltb_ge in Hf); try lia.
  - apply orb_false_iff in Hf as [Hm _]. apply Z.leb_gt in Hm.
    apply Z.quot_pos; lia.
  - destruct (k =? "food")%string; [apply Z.ltb_ge in Hf; lia|].
    destruct (k =? "toy")%string.
    { apply orb_false_iff in Hf as [Hp _]. apply Z.ltb_ge in Hp. lia. }
    destruct (k =? "energy_drink")%string; [apply Z.ltb_ge in Hf; lia|].
    discriminate.
Qed.

(** [coins] is never clamped: a negative balance stays until the pet earns
    its way out, and no action lowers it further. *)
Lemma negative_balance_not_lowered
    (local_date : Q -> string) (e : Env) (a : Action) (p : Pet) :
  coins p < 0 -> 0 <= randint e ->
  coins p <= coins (exec (perform local_date e a) p).
Proof.
  intros Hc Hr. pose proof (refresh_coins e p) as Hrc.
  assert (Hq : coins p <= coins (validated_state e a p)).
  { destruct (_ && _) in Hrc; destruct a; cbn [validated_state]; lia. }
  rewrite perform_exec. cbv zeta.
  destruct (precondition_fails _ _ _ _) eqn:Hf; [exact Hq|].
  pose proof (effect_coins local_date e a _ Hf) as (Hd & Hpos).
  pose proof (charge_needs_coins local_date e a _ Hf) as Hneg.
  pose proof (award_fields (xp_award a) (apply_effect e a (validated_state e a p)))
    as (Hl & Ha & _).
  cbv zeta in *. lia.
Qed.

(** C10.  [from_dict] gives every attribute the value the document has
    for it, whatever that value is, and the default only when the document
    has none; [PetWorld.load] changes nothing of it but [last_updated], which
    becomes the document's value passed through [float]: a float as it is, a
    whole number up to [2^53] in magnitude and a boolean as the float of the
    same value, a string as the number it spells; the load time takes its
    place only when the entry is missing or [float] raises ([None], a list, a
    dictionary, a string that spells no number, an integer too large for a
    float).  No range is checked: the entry [out_of_range_entry] loads into
    a pet with [hunger = 150], [happiness = -20], [energy = 500 > max_energy],
    [xp = 250] and [coins = -5].  Later actions bring the attributes back
    as they write them: every successful action that awards experience
    leaves [xp] below 100; a refresh over a positive number of hours leaves
    [hunger] at most 100 and [energy] between 0 and a non-negative
    [max_energy]; a successful action that writes [hunger] leaves it at
    least 0, one that writes [happiness] leaves it at most 100.  [coins] is
    never clamped, and a negative balance is never lowered further. *)
Theorem from_dict_copies_verbatim
    (parse_float : string -> option Q) (int_float : Z -> option Q) (t : Q)
    (data : gmap string value) (k : string) (v : value)
    (local_date : Q -> string) (e : Env) (a : Action) (p : Pet) :
  k ∈ FIELDS ->
  minutes_bounded a ->
  let o := PetWorld.load_entry parse_float int_float t data in
  let ok := fst (eval (perform local_date e a) p) in
  let p' := exec (perform local_date e a) p in
  let q := exec (refresh e) p in
  (data !! k = Some v -> getattr (from_dict t data) k = Some v) /\
  (data !! k = None -> getattr (from_dict t data) k = Some (field_default t data k)) /\
  (k <> "last_updated" -> getattr o k = getattr (from_dict t data) k) /\
  o_last_updated o =
    VFloat
      match data !! "last_updated" with
      | Some (VFloat x) => x
      | Some (VInt z) =>
          if Z.abs z <=? 2 ^ 53 then inject_Z z else default t (int_float z)
      | Some (VBool b) => if b then 1 else 0
      | Some (VStr s) => default t (parse_float s)
      | Some VNone | Some (VList _) | Some (VDict _) | None => t
      end /\
  pet_of_obj (PetWorld.load_entry no_numeral out_of_float_range 1000 out_of_range_entry)
    = Some out_of_range_pet /\
  ~ in_range out_of_range_pet /\
  ~ xp_normal out_of_range_pet /\
  coins out_of_range_pet < 0 /\
  (ok = true -> xp_award a <> None -> xp p' < 100) /\
  (Qle_bool ((now e - last_updated p) / 3600) 0 = false ->
   (hunger q <= 100)%Q /\ (0 <= energy q)%Q /\
   ((0 <= max_energy p)%Q -> (energy q <= max_energy p)%Q)) /\
  (ok = true -> writes_hunger a = true -> (0 <= hunger p')%Q) /\
  (ok = true -> writes_happiness a = true -> (happiness p' <= 100)%Q) /\
  (coins p < 0 -> 0 <= randint e -> coins p <= coins p').
Proof.
  intros Hk _. cbv zeta. split_and!.
  - intros H. rewrite getattr_from_dict by assumption. unfold dict_get.
    rewrite H. reflexivity.
  - intros H. rewrite getattr_from_dict by assumption. unfold dict_get.
    rewrite H. reflexivity.
  - apply getattr_load_entry.
  - apply load_entry_last_updated.
  - vm_compute. reflexivity.
  - intros (_ & H & _). vm_compute in H. apply H. reflexivity.
  - intros [_ H]. vm_compute in H. discriminate.
  - reflexivity.
  - apply awarding_action_renormalises_xp.
  - apply refresh_clamps.
  - intros Hok. apply (successful_action_clamps local_date e a p Hok).
  - intros Hok. apply (successful_action_clamps local_date e a p Hok).
  - apply negative_balance_not_lowered.
Qed.

Lemma from_dict_copies_verbatim_witness :
  getattr (from_dict 1000 out_of_range_entry) "xp" = Some (VInt 250) /\
  getattr (from_dict 1000 out_of_range_entry) "level" = Some (VInt 1) /\
  getattr (PetWorld.load_entry no_numeral out_of_float_range 1000 out_of_range_entry)
    "hunger" = Some (VFloat 150) /\
  o_last_updated (PetWorld.load_entry no_numeral out_of_float_range 1000 out_of_range_entry)
    = VFloat 1000 /\
  o_last_updated (PetWorld.load_entry no_numeral out_of_float_range 1000 stamped_entry)
    = VFloat 12 /\
  xp (exec (perform day_date an_hour_after_load (APlay 10)) out_of_range_pet) < 100 /\
  (energy (exec (refresh an_hour_after_load) out_of_range_pet) <= 120)%Q.
Proof.
  pose proof (from_dict_copies_verbatim no_numeral out_of_float_range 1000
                out_of_range_entry "xp" (VInt 250) day_date an_hour_after_load
                (APlay 10) out_of_range_pet) as Hxp.
  pose proof (from_dict_copies_verbatim no_numeral out_of_float_range 1000
                out_of_range_entry "level" VNone day_date an_hour_after_load
                (APlay 10) out_of_range_pet) as Hlevel.
  pose proof (from_dict_copies_verbatim no_numeral out_of_float_range 1000
                out_of_range_entry "hunger" (VFloat 150) day_date an_hour_after_load
                (APlay 10) out_of_range_pet) as Hhunger.
  pose proof (from_dict_copies_verbatim no_numeral out_of_float_range 1000
                stamped_entry "name" (VStr "Tom") day_date an_hour_after_load
                (APlay 10) out_of_range_pet) as Hstamp.
  cbv zeta in *.
  destruct Hxp as (Hcopy & _ & _ & Hlast & _ & _ & _ & _ & Hxp & Hclamp & _);
    [unfold FIELDS; repeat constructor | vm_compute; discriminate |].
  destruct Hlevel as (_ & Hdef & _);
    [unfold FIELDS; repeat constructor | vm_compute; discriminate |].
  destruct Hhunger as (Hcopy' & _ & Hload & _);
    [unfold FIELDS; repeat constructor | vm_compute; discriminate |].
  destruct Hstamp as (_ & _ & _ & Hlast' & _);
    [unfold FIELDS; repeat constructor | vm_compute; discriminate |].
  split_and!.
  - apply Hcopy. vm_compute. reflexivity.
  - apply Hdef. vm_compute. reflexivity.
  - rewrite Hload by discriminate. apply Hcopy'. vm_compute. reflexivity.
  - rewrite Hlast. vm_compute. reflexivity.
  - rewrite Hlast'. vm_compute. reflexivity.
  - apply Hxp; [vm_compute; reflexivity | discriminate].
  - apply Hclamp; [vm_compute; reflexivity | vm_compute; discriminate].
Defined.
